(** * BookSlot: the booking eligibility rules of the venue booking form

    A shallow embedding of [client/src/pages/BookSlot.tsx].  The React
    component keeps two pieces of state that matter for the rules, the draft
    ([formData]) and the warning slots ([warnings]); every rule is a
    [useEffect] that rewrites one slot with a functional [setWarnings]
    update.  Effects are embedded as functions [Warnings -> Warnings], user
    handlers as functions on the draft, and the component as an executable
    event machine over both. *)

From Stdlib Require Import String Ascii List ZArith Lia Bool.
Import ListNotations.
Local Open Scope string_scope.
Local Open Scope Z_scope.

(** ** The JavaScript primitives the component relies on *)
Module JS.

(** [!!s] and [if (s)] on a string: only the empty string is falsy. *)
Definition truthy (s : string) : bool := negb (String.eqb s "").

(** [a < b] and [a <= b] on strings compare code units left to right.
    Every string the form compares is ASCII. *)
Definition lt (a b : string) : bool := String.ltb a b.
Definition le (a b : string) : bool := String.leb a b.

(** [1000 * 60 * 60 * 24] *)
Definition msPerDay : Z := 1000 * 60 * 60 * 24.

(** [Math.ceil(a / b)] for integral [a] and positive [b].  Time values
    stay within 8.64e15 milliseconds of the epoch; there the rounded
    quotient by [msPerDay] has the same ceiling as the exact one. *)
Definition ceilDiv (a b : Z) : Z := - ((- a) / b).

(** A calendar date as the date picker produces it: the text
    [YYYY-MM-DD] built from year, month (1..12) and day of month. *)
Record CivilDate := mkDate { year : Z; month : Z; day : Z }.

(** Day number of a calendar date, counted from 1970-01-01 (ECMAScript
    MakeDay on the proleptic Gregorian calendar). *)
Definition daysFromCivil (c : CivilDate) : Z :=
  let y := if month c <=? 2 then year c - 1 else year c in
  let era := y / 400 in
  let yoe := y - era * 400 in
  let mp := if 2 <? month c then month c - 3 else month c + 9 in
  let doy := (153 * mp + 2) / 5 + day c - 1 in
  let doe := yoe * 365 + yoe / 4 - yoe / 100 + doy in
  era * 146097 + doe - 719468.

(** [new Date("YYYY-MM-DD").getTime()]: a date-only text is read as
    midnight UTC of that day, whatever the local time zone. *)
Definition parseDateOnly (c : CivilDate) : Z := daysFromCivil c * msPerDay.

(** [d.getDay()] for a time value [t]: the day of the week in LOCAL time,
    0 = Sunday .. 6 = Saturday.  [tz] is the local offset from UTC in
    minutes, positive east of Greenwich.  Day 0 was a Thursday. *)
Definition getDay (tz : Z) (t : Z) : Z :=
  ((t + tz * 60000) / msPerDay + 4) mod 7.

(** Day of the week of a calendar date itself. *)
Definition weekdayOf (c : CivilDate) : Z := (daysFromCivil c + 4) mod 7.

(** [n.toString().padStart(2, '0')] for [0 <= n < 100]. *)
Definition digit (n : nat) : ascii := ascii_of_nat (48 + n).
Definition pad2 (n : nat) : string :=
  String (digit (Nat.div n 10)) (String (digit (Nat.modulo n 10)) EmptyString).

(** [xs.join(sep)] *)
Definition join (sep : string) (xs : list string) : string := String.concat sep xs.

End JS.

(** ** Data model *)

(** Modelled from the spec: the [EventType] declaration lives in [../types],
    which is not part of the sources at hand.  Its three values are the ones
    the form offers and the lead-time rule compares against. *)
Inductive EventType := closed_club | open_all | co_curricular.

Definition EventType_eqb (a b : EventType) : bool :=
  match a, b with
  | closed_club, closed_club | open_all, open_all | co_curricular, co_curricular => true
  | _, _ => false
  end.

(** Modelled from the spec: [ApiClub] and [ApiVenue] are declared in
    [../lib/api]; the fields are the ones the component reads.  A missing
    [category] is [None]. *)
Record ApiClub := mkClub { club_id : string; club_name : string }.
Record ApiVenue := mkVenue { venue_id : string; venue_category : option string }.

(** [formData].  [date] is [None] for the initial empty text. *)
Record FormData := mkForm {
  eventName : string;
  eventType : EventType;
  expectedAttendees : string;
  clubName : string;
  date : option JS.CivilDate;
  startTime : string;
  endTime : string;
  venueIds : list string
}.

(** [warnings] *)
Record Warnings := mkWarnings {
  timeline : string;
  conflict : string;
  venue : string;
  venueType : string;
  hours : string
}.

(** [{ ...prev, slot: value }] *)
Definition set_timeline (m : string) (w : Warnings) : Warnings :=
  mkWarnings m (conflict w) (venue w) (venueType w) (hours w).
Definition set_conflict (m : string) (w : Warnings) : Warnings :=
  mkWarnings (timeline w) m (venue w) (venueType w) (hours w).
Definition set_venue (m ty : string) (w : Warnings) : Warnings :=
  mkWarnings (timeline w) (conflict w) m ty (hours w).
Definition set_hours (m : string) (w : Warnings) : Warnings :=
  mkWarnings (timeline w) (conflict w) (venue w) (venueType w) m.

Definition initialFormData : FormData :=
  mkForm "" closed_club "" "" None "" "" [].
Definition initialWarnings : Warnings := mkWarnings "" "" "" "" "".

(** [generateTimeOptions]: the start and end times the form can hold. *)
Definition generateTimeOptions : list string :=
  flat_map (fun hour =>
    map (fun minute => (JS.pad2 hour ++ ":" ++ minute)%string)
        ["00"; "15"; "30"; "45"])
    (seq 0 24).
Definition TIME_OPTIONS : list string := Eval vm_compute in generateTimeOptions.

(** Minutes since midnight of an option built by [generateTimeOptions]. *)
Definition minutesOf (s : string) : Z :=
  match s with
  | String a (String b (String _ (String c (String d EmptyString)))) =>
      let v x := Z.of_nat (nat_of_ascii x) - 48 in
      (v a * 10 + v b) * 60 + v c * 10 + v d
  | _ => 0
  end.

(** Modelled from the spec: the static [VENUES] table of [../constants] is
    not part of the sources at hand; its entries carry an [id] and a
    [category], and the table itself is a parameter of the component. *)
Record Venue := mkStaticVenue { static_id : string; static_category : option string }.

(** ** The rules, one per effect *)

Definition MSG_CO_CURRICULAR : string :=
  "Co-curricular events must be booked at least 30 days in advance.".
Definition MSG_OPEN_ALL : string :=
  "Open-for-All events must be booked at least 20 days in advance.".
Definition MSG_CLOSED_CLUB : string :=
  "Closed club events must be booked at least 1 day in advance.".
Definition MSG_END_BEFORE_START : string := "End time must be after start time.".
Definition MSG_WEEKEND : string :=
  "On weekends, bookings are allowed from 8:00 AM to 12:00 AM.".
Definition MSG_WEEKDAY : string :=
  "On weekdays, bookings are only allowed from 4:00 PM to 12:00 AM.".
Definition MSG_CATEGORY_B : string :=
  "Includes Category B Venue(s): Requires Sleazzy Convener & Faculty Approval.".
Definition MSG_CATEGORY_A : string :=
  "Category A Venues: Direct booking available (Subject to vacancy).".
Definition MSG_CONFLICT_UNVERIFIED : string :=
  "Could not verify conflicts. Please check your connection and try again.".

(** The response of [apiRequest] on [/api/bookings/check-conflict]: the
    promise resolves with [{ hasConflict, message }] or rejects. *)
Inductive ConflictResponse :=
| Resolved (hasConflict : bool) (message : string)
| Rejected.

(** The query the conflict effect sends: the draft snapshot it closed over. *)
Record ConflictQuery := mkQuery {
  q_date : JS.CivilDate;
  q_startTime : string;
  q_endTime : string;
  q_clubId : string;
  q_venueIds : option string
}.

(** What one run of the conflict effect does at once: clear the slot, or
    send a request whose answer is handled later. *)
Inductive ConflictAction :=
| ClearConflict
| IssueRequest (q : ConflictQuery).

Section Rules.

(** Local offset from UTC of the browser, in minutes. *)
Variable tz : Z.
(** The static venue table. *)
Variable VENUES : list Venue.

(** [normalizeVenueCategory] *)
Definition normalizeVenueCategory (category : option string) : option string :=
  match category with
  | None => None
  | Some c =>
      if negb (JS.truthy c) then None
      else if String.eqb c "auto_approval" then Some "A"%string
      else if String.eqb c "needs_approval" then Some "B"%string
      else Some c
  end.

(** [getVenueCategory] *)
Definition getVenueCategory (venues : list ApiVenue) (id : string) : option string :=
  let apiCategory :=
    match find (fun v => String.eqb (venue_id v) id) venues with
    | Some v => venue_category v
    | None => None
    end in
  match normalizeVenueCategory apiCategory with
  | Some normalized => Some normalized
  | None =>
      match find (fun v => String.eqb (static_id v) id) VENUES with
      | Some v => static_category v
      | None => None
      end
  end.

(** The [diffDays] of the timeline effect, [today] being the instant
    [new Date()] returned. *)
Definition diffDays (today : Z) (d : JS.CivilDate) : Z :=
  let diffTime := JS.parseDateOnly d - today in
  JS.ceilDiv diffTime JS.msPerDay.

(** Timeline Validation *)
Definition timelineEffect (today : Z) (fd : FormData) (prev : Warnings) : Warnings :=
  match date fd with
  | None => prev
  | Some d =>
      let n := diffDays today d in
      let warningMsg :=
        if EventType_eqb (eventType fd) co_curricular && (n <? 30) then MSG_CO_CURRICULAR
        else if EventType_eqb (eventType fd) open_all && (n <? 20) then MSG_OPEN_ALL
        else if EventType_eqb (eventType fd) closed_club && (n <? 1) then MSG_CLOSED_CLUB
        else ""%string in
      set_timeline warningMsg prev
  end.

(** [c === 'B' || c === 'needs_approval'] *)
Definition isCategoryB (c : option string) : bool :=
  match c with
  | Some s => String.eqb s "B" || String.eqb s "needs_approval"
  | None => false
  end.

(** Venue Permission Logic *)
Definition venueEffect (venues : list ApiVenue) (fd : FormData) (prev : Warnings) : Warnings :=
  match venueIds fd with
  | [] => set_venue "" "" prev
  | _ =>
      let categories := map (getVenueCategory venues) (venueIds fd) in
      let hasCategoryB := existsb isCategoryB categories in
      if hasCategoryB then set_venue MSG_CATEGORY_B "warning" prev
      else set_venue MSG_CATEGORY_A "success" prev
  end.

(** Operating Hours Logic *)
Definition hoursEffect (fd : FormData) (prev : Warnings) : Warnings :=
  match date fd with
  | None => set_hours "" prev
  | Some d =>
      if negb (JS.truthy (startTime fd)) || negb (JS.truthy (endTime fd))
      then set_hours "" prev
      else
        let day := JS.getDay tz (JS.parseDateOnly d) in
        let isWeekend := (day =? 0) || (day =? 6) in
        let start := startTime fd in
        let end_ := endTime fd in
        let errorMsg :=
          if JS.le end_ start then MSG_END_BEFORE_START
          else if isWeekend then
            (if JS.lt start "08:00" then MSG_WEEKEND else ""%string)
          else
            (if JS.lt start "16:00" then MSG_WEEKDAY else ""%string) in
        set_hours errorMsg prev
  end.

(** [clubs.find(c => c.name === formData.clubName)] *)
Definition findClub (clubs : list ApiClub) (name : string) : option ApiClub :=
  find (fun c => String.eqb (club_name c) name) clubs.

(** Conflict Logic, up to the [await].  The guard inside [checkConflicts]
    repeats the one of the effect on the same closed-over draft and never
    fires; with a picked date and times taken from the selects the two
    [toISOString] calls do not throw. *)
Definition conflictEffect (clubs : list ApiClub) (fd : FormData) : ConflictAction :=
  match date fd with
  | None => ClearConflict
  | Some d =>
      if negb (JS.truthy (startTime fd)) || negb (JS.truthy (endTime fd))
         || negb (JS.truthy (clubName fd))
      then ClearConflict
      else
        IssueRequest
          (mkQuery d (startTime fd) (endTime fd)
             (match findClub clubs (clubName fd) with
              | Some c => club_id c
              | None => ""%string
              end)
             (match venueIds fd with
              | [] => None
              | ids => Some (JS.join "," ids)
              end))
  end.

(** Conflict Logic, after the [await]: the [then] branch and the [catch]. *)
Definition onConflictResponse (r : ConflictResponse) (prev : Warnings) : Warnings :=
  match r with
  | Resolved true message => set_conflict message prev
  | Resolved false _ => set_conflict "" prev
  | Rejected => set_conflict MSG_CONFLICT_UNVERIFIED prev
  end.

(** [handleVenueToggle] *)
Definition handleVenueToggle (venueId : string) (prev : FormData) : FormData :=
  let current := venueIds prev in
  let updated :=
    if existsb (String.eqb venueId) current
    then filter (fun id => negb (String.eqb id venueId)) current
    else (current ++ [venueId])%list in
  mkForm (eventName prev) (eventType prev) (expectedAttendees prev) (clubName prev)
         (date prev) (startTime prev) (endTime prev) updated.

(** [hasErrors] *)
Definition hasErrors (w : Warnings) : bool :=
  JS.truthy (timeline w) || JS.truthy (conflict w) || JS.truthy (hours w).

(** The gate of the verdict. *)
Definition submittable (w : Warnings) : bool := negb (hasErrors w).

(** Whether [new Date(`${formData.date}T${time}:00`)] is a valid date, so
    that [toISOString()] returns instead of throwing a [RangeError].  The
    draft's date is empty or a picked day and its times are empty or options
    of the selects: of these texts exactly the non-empty ones parse.  The
    conflict effect above reads its two dates by the same rule. *)
Definition dateTimeValid (fd : FormData) (time : string) : bool :=
  match date fd with
  | Some _ => JS.truthy time
  | None => false
  end.

(** How one call of [handleSubmit] ends, up to the POST it sends.
    [InvalidDateTime] is the [RangeError] of [toISOString()], caught like
    the invalid club and reported as a failed submission. *)
Inductive SubmitOutcome :=
| ResolveWarningsFirst
| AlreadySubmitting
| InvalidClub
| NoVenueSelected
| InvalidDateTime
| Posted (clubId : string) (ids : list string).

(** [handleSubmit].  The two dates are built before the venue check and
    read, by [toISOString()], after it, while the body of the POST is put
    together. *)
Definition handleSubmit (clubs : list ApiClub) (isSubmitting : bool)
           (fd : FormData) (w : Warnings) : SubmitOutcome :=
  if JS.truthy (timeline w) || JS.truthy (conflict w) || JS.truthy (hours w)
  then ResolveWarningsFirst
  else if isSubmitting then AlreadySubmitting
  else match findClub clubs (clubName fd) with
       | None => InvalidClub
       | Some selectedClub =>
           match venueIds fd with
           | [] => NoVenueSelected
           | ids =>
               if dateTimeValid fd (startTime fd) && dateTimeValid fd (endTime fd)
               then Posted (club_id selectedClub) ids
               else InvalidDateTime
           end
       end.

(** The submit action goes through when the POST is sent. *)
Definition blocked (o : SubmitOutcome) : bool :=
  match o with Posted _ _ => false | _ => true end.

End Rules.

(** ** The component as an event machine *)

(** One call of [handleChange(name, value)], by call site.  The [date] field
    is only ever written by the calendar effect, with the formatted day the
    user picked. *)
Inductive FieldChange :=
| SetEventName (v : string)
| SetEventType (v : EventType)
| SetExpectedAttendees (v : string)
| SetClubName (v : string)
| SetDate (v : JS.CivilDate)
| SetStartTime (v : string)
| SetEndTime (v : string).

(** [handleChange] *)
Definition handleChange (c : FieldChange) (prev : FormData) : FormData :=
  match c with
  | SetEventName v =>
      mkForm v (eventType prev) (expectedAttendees prev) (clubName prev)
             (date prev) (startTime prev) (endTime prev) (venueIds prev)
  | SetEventType v =>
      mkForm (eventName prev) v (expectedAttendees prev) (clubName prev)
             (date prev) (startTime prev) (endTime prev) (venueIds prev)
  | SetExpectedAttendees v =>
      mkForm (eventName prev) (eventType prev) v (clubName prev)
             (date prev) (startTime prev) (endTime prev) (venueIds prev)
  | SetClubName v =>
      mkForm (eventName prev) (eventType prev) (expectedAttendees prev) v
             (date prev) (startTime prev) (endTime prev) (venueIds prev)
  | SetDate v =>
      mkForm (eventName prev) (eventType prev) (expectedAttendees prev) (clubName prev)
             (Some v) (startTime prev) (endTime prev) (venueIds prev)
  | SetStartTime v =>
      mkForm (eventName prev) (eventType prev) (expectedAttendees prev) (clubName prev)
             (date prev) v (endTime prev) (venueIds prev)
  | SetEndTime v =>
      mkForm (eventName prev) (eventType prev) (expectedAttendees prev) (clubName prev)
             (date prev) (startTime prev) v (venueIds prev)
  end.

(** The state of one mounted form: the draft, the warning slots, the
    catalog fetched by [fetchMeta], and the conflict requests in flight. *)
Record State := mkState {
  formData : FormData;
  warnings : Warnings;
  clubs : list ApiClub;
  venues : list ApiVenue;
  pending : list ConflictQuery
}.

Definition initialState : State :=
  mkState initialFormData initialWarnings [] [] [].

(** What can happen to a mounted form.  Handlers fire on user input (the
    prefill of the club name from the logged-in user is a [SetClubName]); an
    effect runs after a render in which one of its dependencies changed; a
    conflict request settles whenever the network decides, in any order.
    The machine lets effects run at any time, which covers every schedule
    React can produce. *)
Inductive Event :=
| MetaLoaded (clubsData : list ApiClub) (venuesData : list ApiVenue)
| Change (c : FieldChange)
| VenueToggle (venueId : string)
| RunTimeline (today : Z)
| RunVenue
| RunHours
| RunConflict
| ConflictSettled (i : nat) (r : ConflictResponse).

(** [l] without its [i]-th element. *)
Definition removeAt {A} (i : nat) (l : list A) : list A :=
  (firstn i l ++ skipn (S i) l)%list.

Section Component.

Variable tz : Z.
Variable VENUES : list Venue.

Definition step (s : State) (e : Event) : State :=
  match e with
  | MetaLoaded cs vs => mkState (formData s) (warnings s) cs vs (pending s)
  | Change c =>
      mkState (handleChange c (formData s)) (warnings s) (clubs s) (venues s) (pending s)
  | VenueToggle id =>
      mkState (handleVenueToggle id (formData s)) (warnings s) (clubs s) (venues s)
              (pending s)
  | RunTimeline today =>
      mkState (formData s) (timelineEffect today (formData s) (warnings s))
              (clubs s) (venues s) (pending s)
  | RunVenue =>
      mkState (formData s) (venueEffect VENUES (venues s) (formData s) (warnings s))
              (clubs s) (venues s) (pending s)
  | RunHours =>
      mkState (formData s) (hoursEffect tz (formData s) (warnings s))
              (clubs s) (venues s) (pending s)
  | RunConflict =>
      match conflictEffect (clubs s) (formData s) with
      | ClearConflict =>
          mkState (formData s) (set_conflict "" (warnings s)) (clubs s) (venues s)
                  (pending s)
      | IssueRequest q =>
          mkState (formData s) (warnings s) (clubs s) (venues s) (pending s ++ [q])%list
      end
  | ConflictSettled i r =>
      match nth_error (pending s) i with
      | Some _ =>
          mkState (formData s) (onConflictResponse r (warnings s)) (clubs s) (venues s)
                  (removeAt i (pending s))
      | None => s
      end
  end.

Definition run (s : State) (es : list Event) : State := fold_left step es s.


End Component.


(** ** The rules as the specification words them *)

(** Minimum lead time of an event type, in days. *)
Definition threshold (t : EventType) : Z :=
  match t with
  | co_curricular => 30
  | open_all => 20
  | closed_club => 1
  end.

(** The message shown when the lead time is too short. *)
Definition violationMessage (t : EventType) : string :=
  match t with
  | co_curricular => MSG_CO_CURRICULAR
  | open_all => MSG_OPEN_ALL
  | closed_club => MSG_CLOSED_CLUB
  end.

(** The calendar day (UTC day number) an instant falls on. *)
Definition calendarDay (t : Z) : Z := t / JS.msPerDay.

(** A calendar date that is a Saturday or a Sunday. *)
Definition isWeekendDate (d : JS.CivilDate) : bool :=
  (JS.weekdayOf d =? 0) || (JS.weekdayOf d =? 6).

(** The operating-hours rule on a calendar date and two times of day. *)
Definition hoursRule (d : JS.CivilDate) (start end_ : string) : string :=
  if JS.le end_ start then MSG_END_BEFORE_START
  else if isWeekendDate d then
    (if JS.lt start "08:00" then MSG_WEEKEND else ""%string)
  else
    (if JS.lt start "16:00" then MSG_WEEKDAY else ""%string).

(** A venue the catalog marks as needing approval, in either spelling. *)
Definition restricted (c : option string) : Prop :=
  c = Some "B"%string \/ c = Some "needs_approval"%string.

(** A venue the catalog marks as directly bookable, in either spelling. *)
Definition direct (c : option string) : Prop :=
  c = Some "A"%string \/ c = Some "auto_approval"%string.

(** A venue no list gives a category to: whatever entry the fetched list
    has for it carries none (or an empty one), and so does the static one.
    An identifier unknown to both lists is the plainest case. *)
Definition uncategorised (VENUES : list Venue) (venues : list ApiVenue) (id : string) : Prop :=
  (forall v, find (fun v => String.eqb (venue_id v) id) venues = Some v ->
             venue_category v = None \/ venue_category v = Some ""%string) /\
  (forall v, find (fun v => String.eqb (static_id v) id) VENUES = Some v ->
             static_category v = None).

(** The Conflict slot a response leaves behind. *)
Definition conflictOutcome (r : ConflictResponse) : string :=
  match r with
  | Resolved true message => message
  | Resolved false _ => ""%string
  | Rejected => MSG_CONFLICT_UNVERIFIED
  end.

(** ** Sample data *)

Definition sampleClubs : list ApiClub := [mkClub "c1" "Coding Club"].
Definition sampleVenues : list ApiVenue :=
  [mkVenue "v1" (Some "A"%string); mkVenue "v2" (Some "needs_approval"%string);
   mkVenue "v3" None].
Definition sampleStatic : list Venue :=
  [mkStaticVenue "v3" (Some "B"%string); mkStaticVenue "v4" (Some "A"%string)].

Definition ghostVenueDraft : FormData :=
  mkForm "Tech Talk" closed_club "100" "Coding Club" None "" "" ["v1"; "ghost"]%string.
Definition mixedVenueDraft : FormData :=
  mkForm "Tech Talk" closed_club "100" "Coding Club" None "" "" ["v1"; "v2"]%string.

(** Saturday 3 January 2026 and Tuesday 20 January 2026. *)
Definition saturday : JS.CivilDate := JS.mkDate 2026 1 3.
Definition tuesday : JS.CivilDate := JS.mkDate 2026 1 20.

(** 1 January 2026, 10:00 UTC. *)
Definition newYearMorning : Z := 1767261600000.

Definition saturdayDraft : FormData :=
  mkForm "Hack Night" closed_club "50" "Coding Club" (Some saturday) "09:00" "10:00" ["v1"%string].
Definition tuesdayDraft : FormData :=
  mkForm "Tech Talk" co_curricular "100" "Coding Club" (Some tuesday) "17:00" "18:00" ["v1"%string].
Definition noVenueDraft : FormData :=
  mkForm "Tech Talk" closed_club "100" "Coding Club" (Some tuesday) "17:00" "18:00" [].

(** Monday 5 January 2026, nine to ten in the morning. *)
Definition mondayDraft : FormData :=
  mkForm "Stand-up" closed_club "10" "Coding Club" (Some (JS.mkDate 2026 1 5))
         "09:00" "10:00" ["v1"%string].

(** Offsets from UTC, in minutes: India and the east coast of the USA. *)
Definition IST : Z := 330.
Definition EST : Z := -300.

(** A session in which the user fills in a draft for Tuesday 17:00 to 18:00
    (snapshot D1, free) and then moves the end to 19:00 (snapshot D2, which
    clashes).  Each change is followed by the effects that depend on it. *)
Definition fillDraft : list Event :=
  [MetaLoaded sampleClubs sampleVenues;
   Change (SetClubName "Coding Club"); RunConflict;
   VenueToggle "v1"; RunVenue; RunConflict;
   Change (SetDate tuesday); RunTimeline newYearMorning; RunHours; RunConflict;
   Change (SetStartTime "17:00"); RunHours; RunConflict;
   Change (SetEndTime "18:00"); RunHours; RunConflict;
   Change (SetEndTime "19:00"); RunHours; RunConflict].

Definition queryD1 : ConflictQuery := mkQuery tuesday "17:00" "18:00" "c1" (Some "v1"%string).
Definition queryD2 : ConflictQuery := mkQuery tuesday "17:00" "19:00" "c1" (Some "v1"%string).

(** What the scheduling authority answers for D1 and for D2. *)
Definition answerD1 : ConflictResponse := Resolved false "".
Definition answerD2 : ConflictResponse :=
  Resolved true "Auditorium is already booked from 18:00 to 19:00.".

(** D2's answer arrives first, D1's after it. *)
Definition reorderedAnswers : list Event :=
  [ConflictSettled 1 answerD2; ConflictSettled 0 answerD1].


(** ** The date picker and the two effects that keep it in step with the draft *)

(** The calendar date whose day number is [z]: the inverse of
    [JS.daysFromCivil], which is what [getFullYear], [getMonth() + 1] and
    [getDate] read off a day. *)
Definition civilFromDays (z0 : Z) : JS.CivilDate :=
  let z := z0 + 719468 in
  let era := z / 146097 in
  let doe := z - era * 146097 in
  let yoe := (doe - doe / 1460 + doe / 36524 - doe / 146096) / 365 in
  let y := yoe + era * 400 in
  let doy := doe - (365 * yoe + yoe / 4 - yoe / 100) in
  let mp := (5 * doy + 2) / 153 in
  let d := doy - (153 * mp + 2) / 5 + 1 in
  let m := if mp <? 10 then mp + 3 else mp - 9 in
  JS.mkDate (if m <=? 2 then y + 1 else y) m d.

(** The local day number an instant falls on, in a zone [tz] minutes ahead
    of UTC (a zone without daylight saving, or within one period of it). *)
Definition localDay (tz : Z) (t : Z) : Z := (t + tz * 60000) / JS.msPerDay.

(** [(t.getFullYear(), t.getMonth() + 1, t.getDate())] *)
Definition localDate (tz : Z) (t : Z) : JS.CivilDate := civilFromDays (localDay tz t).

(** [today.setHours(0, 0, 0, 0)]: the start of the local day of [t]. *)
Definition setHoursMidnight (tz : Z) (t : Z) : Z :=
  localDay tz t * JS.msPerDay - tz * 60000.

(** The [disabled] test of the calendar on a day cell [cell], at instant
    [now]. *)
Definition calendarDisabled (tz : Z) (now cell : Z) : bool :=
  cell <? setHoursMidnight tz now.

(** Handle date selection from Calendar: the effect on [selectedDate].  The
    popover it also closes plays no part in the rules. *)
Definition dateSelectedEffect (tz : Z) (selectedDate : option Z) (prev : FormData) : FormData :=
  match selectedDate with
  | Some t => handleChange (SetDate (localDate tz t)) prev
  | None => prev
  end.

(** Parse date string to Date object for Calendar: the effect on
    [formData.date], giving the next [selectedDate]. *)
Definition dateParsedEffect (fd : FormData) (selectedDate : option Z) : option Z :=
  match date fd with
  | Some d => Some (JS.parseDateOnly d)
  | None => selectedDate
  end.

(** One round of the two effects: the draft's date is parsed into
    [selectedDate], whose change writes the date back. *)
Definition syncRound (tz : Z) (fd : FormData) : FormData :=
  dateSelectedEffect tz (dateParsedEffect fd None) fd.

(** ** The venue lists of the popover *)

(** [normalizeVenueCategory(v.category) === c], the filter of a list. *)
Definition listedUnder (c : string) (v : ApiVenue) : bool :=
  match normalizeVenueCategory (venue_category v) with
  | Some x => String.eqb x c
  | None => false
  end.

(** The venues offered under "Category A (General)" and under "Category B
    (Restricted)". *)
Definition categoryAList (venues : list ApiVenue) : list ApiVenue :=
  filter (listedUnder "A") venues.
Definition categoryBList (venues : list ApiVenue) : list ApiVenue :=
  filter (listedUnder "B") venues.

(** The event by which [fetchMeta] delivers the catalog.  Its two requests
    are awaited together: when either fails neither list is set. *)
Definition isMetaLoaded (e : Event) : bool :=
  match e with
  | MetaLoaded _ _ => true
  | _ => false
  end.

(** The values the effects can leave in the Timeline, Hours and venue slots. *)
Definition slotsWellFormed (w : Warnings) : Prop :=
  In (timeline w) [""%string; MSG_CO_CURRICULAR; MSG_OPEN_ALL; MSG_CLOSED_CLUB] /\
  In (hours w) [""%string; MSG_END_BEFORE_START; MSG_WEEKEND; MSG_WEEKDAY] /\
  In (venue w, venueType w)
     [(""%string, ""%string); (MSG_CATEGORY_B, "warning"%string);
      (MSG_CATEGORY_A, "success"%string)].

(** The [HH:mm] of the ECMAScript date-time format: two digits, a colon,
    two digits, with the hour below 24, or 24:00. *)
Definition isDigit (a : ascii) : bool :=
  (48 <=? nat_of_ascii a)%nat && (nat_of_ascii a <=? 57)%nat.
Definition digitValue (a : ascii) : Z := Z.of_nat (nat_of_ascii a) - 48.
Definition isoTime (s : string) : bool :=
  match s with
  | String a (String b (String c (String d (String e EmptyString)))) =>
      let hour := 10 * digitValue a + digitValue b in
      let minute := 10 * digitValue d + digitValue e in
      isDigit a && isDigit b && Ascii.eqb c ":" && isDigit d && isDigit e &&
      (((hour <? 24) && (minute <? 60)) || ((hour =? 24) && (minute =? 0)))
  | _ => false
  end.

(** A draft without an end time, everything else in place. *)
Definition noEndTimeDraft : FormData :=
  mkForm "Tech Talk" closed_club "100" "Coding Club" (Some tuesday) "17:00" "" ["v1"%string].



(** ** Properties *)

Lemma truthy_true (s : string) : JS.truthy s = true <-> s <> ""%string.
Proof.
  unfold JS.truthy. rewrite negb_true_iff. apply String.eqb_neq.
Qed.

Lemma truthy_false (s : string) : JS.truthy s = false <-> s = ""%string.
Proof.
  unfold JS.truthy. rewrite negb_false_iff. apply String.eqb_eq.
Qed.

Lemma hasErrors_true (w : Warnings) :
  hasErrors w = true <-> (timeline w <> "" \/ hours w <> "" \/ conflict w <> "")%string.
Proof.
  unfold hasErrors. rewrite !orb_true_iff, !truthy_true. tauto.
Qed.

Lemma msPerDay_pos : 0 < JS.msPerDay.
Proof. unfold JS.msPerDay. lia. Qed.

(** [ceilDiv a b] is the least integer whose multiple of [b] reaches [a]. *)
Lemma ceilDiv_spec (a b : Z) :
  0 < b -> (JS.ceilDiv a b - 1) * b < a <= JS.ceilDiv a b * b.
Proof.
  intros Hb. unfold JS.ceilDiv.
  pose proof (Z.div_mod (- a) b ltac:(lia)) as Hdm.
  pose proof (Z.mod_pos_bound (- a) b Hb) as Hm.
  nia.
Qed.

(** The ceiling swallows the time of day of [today]: what is left is the
    difference of two day numbers. *)
Lemma diffDays_calendar (today : Z) (d : JS.CivilDate) :
  diffDays today d = JS.daysFromCivil d - calendarDay today.
Proof.
  unfold diffDays, calendarDay, JS.ceilDiv, JS.parseDateOnly.
  replace (- (JS.daysFromCivil d * JS.msPerDay - today))
    with (today + (- JS.daysFromCivil d) * JS.msPerDay) by lia.
  rewrite Z.div_add by (pose proof msPerDay_pos; lia). lia.
Qed.

(** East of Greenwich, midnight UTC of a date is still that date locally. *)
Lemma getDay_east (tz : Z) (d : JS.CivilDate) :
  0 <= tz < 1440 -> JS.getDay tz (JS.parseDateOnly d) = JS.weekdayOf d.
Proof.
  intros Htz. unfold JS.getDay, JS.weekdayOf, JS.parseDateOnly.
  f_equal. f_equal.
  rewrite Z.add_comm, Z.div_add by (pose proof msPerDay_pos; lia).
  rewrite Z.div_small by (unfold JS.msPerDay; lia). lia.
Qed.

(** West of Greenwich it is the evening before. *)
Lemma getDay_west (tz : Z) (d : JS.CivilDate) :
  -1440 <= tz < 0 ->
  JS.getDay tz (JS.parseDateOnly d) = (JS.daysFromCivil d - 1 + 4) mod 7.
Proof.
  intros Htz. unfold JS.getDay, JS.parseDateOnly.
  f_equal. f_equal.
  replace (JS.daysFromCivil d * JS.msPerDay + tz * 60000)
    with ((tz * 60000 + JS.msPerDay) + (JS.daysFromCivil d - 1) * JS.msPerDay) by lia.
  rewrite Z.div_add by (pose proof msPerDay_pos; lia).
  rewrite Z.div_small by (unfold JS.msPerDay; lia). lia.
Qed.

(** On the two kinds of text a time field of the form holds, the empty one
    and the options of the selects, being non-empty is being a time of the
    ECMAScript format. *)
Lemma form_times_parse (s : string) :
  s = ""%string \/ In s TIME_OPTIONS -> JS.truthy s = isoTime s.
Proof.
  intros [->|Hs]; [reflexivity|].
  assert (Hall : forallb (fun x => Bool.eqb (JS.truthy x) (isoTime x)) TIME_OPTIONS = true)
    by (vm_compute; reflexivity).
  rewrite forallb_forall in Hall. apply Bool.eqb_prop, Hall, Hs.
Qed.

Lemma dateTimeValid_true (fd : FormData) (time : string) :
  dateTimeValid fd time = true <-> date fd <> None /\ time <> ""%string.
Proof.
  unfold dateTimeValid. destruct (date fd).
  - rewrite truthy_true. split; [intros H; split; [discriminate | exact H] | tauto].
  - split; [discriminate | intros [H _]; congruence].
Qed.

(** C1, the gate and what else stops a submission: [submittable] is false
    exactly when one of the Timeline, Hours and Conflict slots is non-empty;
    rewriting the venue-routing slot never changes it; [handleSubmit] stops at
    its warnings check exactly when [submittable] is false; and the POST is
    sent exactly when, besides that, no submission is in flight, the club
    name resolves, at least one venue is selected, and the date, the start
    time and the end time are filled in. *)
Theorem submittable_gate (w : Warnings) (v ty : string)
        (clubs : list ApiClub) (isSubmitting : bool) (fd : FormData) :
  (submittable w = false <->
     (timeline w <> "" \/ hours w <> "" \/ conflict w <> "")%string) /\
  submittable (set_venue v ty w) = submittable w /\
  (handleSubmit clubs isSubmitting fd w = ResolveWarningsFirst <-> submittable w = false) /\
  (blocked (handleSubmit clubs isSubmitting fd w) = false <->
     submittable w = true /\ isSubmitting = false /\
     findClub clubs (clubName fd) <> None /\ venueIds fd <> [] /\
     date fd <> None /\ startTime fd <> ""%string /\ endTime fd <> ""%string).
Proof.
  assert (Hgate : submittable w = false <-> hasErrors w = true).
  { unfold submittable. apply negb_false_iff. }
  split; [|split; [|split]].
  - rewrite Hgate. apply hasErrors_true.
  - reflexivity.
  - rewrite Hgate. unfold handleSubmit, hasErrors.
    destruct (JS.truthy (timeline w) || JS.truthy (conflict w) || JS.truthy (hours w)).
    + tauto.
    + destruct isSubmitting; [split; discriminate|].
      destruct (findClub clubs (clubName fd)); [|split; discriminate].
      destruct (venueIds fd); [split; discriminate|].
      destruct (dateTimeValid fd (startTime fd) && dateTimeValid fd (endTime fd));
        split; discriminate.
  - unfold handleSubmit, submittable, hasErrors.
    destruct (JS.truthy (timeline w) || JS.truthy (conflict w) || JS.truthy (hours w));
      simpl; [split; [discriminate | intros (H & _); discriminate]|].
    destruct isSubmitting; simpl;
      [split; [discriminate | intros (_ & H & _); discriminate]|].
    destruct (findClub clubs (clubName fd)); simpl;
      [|split; [discriminate | intros (_ & _ & H & _); congruence]].
    destruct (venueIds fd); simpl;
      [split; [discriminate | intros (_ & _ & _ & H & _); congruence]|].
    destruct (dateTimeValid fd (startTime fd) && dateTimeValid fd (endTime fd)) eqn:E; simpl.
    + apply andb_true_iff in E. destruct E as [Es Ee].
      apply dateTimeValid_true in Es. apply dateTimeValid_true in Ee.
      split; [|reflexivity]. intros _.
      repeat split; try congruence; tauto.
    + split; [discriminate|].
      intros (_ & _ & _ & _ & Hd & Hs & He). exfalso.
      assert (Es : dateTimeValid fd (startTime fd) = true)
        by (apply dateTimeValid_true; auto).
      assert (Ee : dateTimeValid fd (endTime fd) = true)
        by (apply dateTimeValid_true; auto).
      rewrite Es, Ee in E. discriminate.
Qed.

(** C1 as worded fails: with every warning slot empty the submit action is
    still stopped, by the in-flight guard, by an empty venue selection, or by
    a missing end time. *)
Lemma submit_stopped_without_warning :
  hasErrors initialWarnings = false /\
  blocked (handleSubmit sampleClubs true tuesdayDraft initialWarnings) = true /\
  handleSubmit sampleClubs true tuesdayDraft initialWarnings = AlreadySubmitting /\
  handleSubmit sampleClubs false noVenueDraft initialWarnings = NoVenueSelected /\
  handleSubmit sampleClubs false noEndTimeDraft initialWarnings = InvalidDateTime.
Proof.
  repeat split.
Qed.

(** C2, LeadTimePolicy: [diffDays] is the ceiling of (date - today) / 1 day,
    it equals the difference of the two calendar day numbers whatever the
    time of day of [today], and the Timeline slot receives the event type's
    exact message when [diffDays] is below the threshold (30, 20, 1) and the
    empty string otherwise. *)
Theorem lead_time_policy (today : Z) (fd : FormData) (d : JS.CivilDate) (prev : Warnings) :
  date fd = Some d ->
  let n := diffDays today d in
  (n - 1) * JS.msPerDay < JS.parseDateOnly d - today <= n * JS.msPerDay /\
  n = JS.daysFromCivil d - calendarDay today /\
  timeline (timelineEffect today fd prev) =
    (if n <? threshold (eventType fd) then violationMessage (eventType fd) else ""%string).
Proof.
  intros Hd n. split; [|split].
  - apply ceilDiv_spec, msPerDay_pos.
  - apply diffDays_calendar.
  - unfold timelineEffect. rewrite Hd. fold n.
    destruct (eventType fd); simpl; destruct (n <? _); reflexivity.
Qed.

Lemma lead_time_policy_witness :
  date tuesdayDraft = Some tuesday /\
  diffDays newYearMorning tuesday = 19 /\
  timeline (timelineEffect newYearMorning tuesdayDraft initialWarnings) = MSG_CO_CURRICULAR.
Proof.
  split; [reflexivity|].
  destruct (lead_time_policy newYearMorning tuesdayDraft tuesday initialWarnings eq_refl)
    as (_ & Hn & Hmsg).
  split; [exact Hn | exact Hmsg].
Defined.



(** On the options the two time selects offer, comparing the texts is
    comparing the times of day. *)
Lemma time_options_order (a b : string) :
  In a TIME_OPTIONS -> In b TIME_OPTIONS ->
  JS.le a b = (minutesOf a <=? minutesOf b) /\ JS.lt a b = (minutesOf a <? minutesOf b).
Proof.
  intros Ha Hb.
  assert (Hall : forallb (fun x => forallb (fun y =>
            Bool.eqb (JS.le x y) (minutesOf x <=? minutesOf y)
            && Bool.eqb (JS.lt x y) (minutesOf x <? minutesOf y)) TIME_OPTIONS)
            TIME_OPTIONS = true) by (vm_compute; reflexivity).
  rewrite forallb_forall in Hall. specialize (Hall a Ha).
  rewrite forallb_forall in Hall. specialize (Hall b Hb).
  apply andb_true_iff in Hall. destruct Hall as [H1 H2].
  split; apply Bool.eqb_prop; assumption.
Qed.

(** The operating-hours rule holds as specified wherever local time is not
    behind UTC. *)
Lemma hours_policy_east_of_utc (tz : Z) (fd : FormData) (d : JS.CivilDate) (prev : Warnings) :
  0 <= tz < 1440 ->
  date fd = Some d -> startTime fd <> ""%string -> endTime fd <> ""%string ->
  hours (hoursEffect tz fd prev) = hoursRule d (startTime fd) (endTime fd).
Proof.
  intros Htz Hd Hs He. unfold hoursEffect, hoursRule, isWeekendDate.
  rewrite Hd.
  apply truthy_true in Hs. apply truthy_true in He. rewrite Hs, He. simpl.
  rewrite (getDay_east tz d Htz). reflexivity.
Qed.

(** The effect always classifies by the local day of the week of midnight
    UTC of the date. *)
Lemma hours_policy_local_day (tz : Z) (fd : FormData) (d : JS.CivilDate) (prev : Warnings) :
  date fd = Some d -> startTime fd <> ""%string -> endTime fd <> ""%string ->
  hours (hoursEffect tz fd prev) =
    let day := JS.getDay tz (JS.parseDateOnly d) in
    if JS.le (endTime fd) (startTime fd) then MSG_END_BEFORE_START
    else if (day =? 0) || (day =? 6) then
      (if JS.lt (startTime fd) "08:00" then MSG_WEEKEND else ""%string)
    else
      (if JS.lt (startTime fd) "16:00" then MSG_WEEKDAY else ""%string).
Proof.
  intros Hd Hs He. unfold hoursEffect. rewrite Hd.
  apply truthy_true in Hs. apply truthy_true in He. rewrite Hs, He. reflexivity.
Qed.

(** C3, OperatingHoursPolicy, where the code departs from it: a browser five
    hours behind UTC applies the weekday rule to Saturday 3 January 2026
    (nine to ten is refused although the weekend rule allows it) and the
    weekend rule to Monday 5 January 2026 (nine to ten is accepted although
    the weekday rule refuses it).  The same drafts are judged as specified
    in a browser ahead of UTC. *)
Theorem hours_policy_behind_utc :
  isWeekendDate saturday = true /\
  hoursRule saturday "09:00" "10:00" = ""%string /\
  hours (hoursEffect EST saturdayDraft initialWarnings) = MSG_WEEKDAY /\
  hours (hoursEffect IST saturdayDraft initialWarnings) = ""%string /\
  isWeekendDate (JS.mkDate 2026 1 5) = false /\
  hoursRule (JS.mkDate 2026 1 5) "09:00" "10:00" = MSG_WEEKDAY /\
  hours (hoursEffect EST mondayDraft initialWarnings) = ""%string /\
  hours (hoursEffect IST mondayDraft initialWarnings) = MSG_WEEKDAY.
Proof.
  assert (Hsat : JS.getDay EST (JS.parseDateOnly saturday) = 5) by reflexivity.
  assert (Hmon : JS.getDay EST (JS.parseDateOnly (JS.mkDate 2026 1 5)) = 0) by reflexivity.
  assert (Hs : hours (hoursEffect EST saturdayDraft initialWarnings) = MSG_WEEKDAY).
  { rewrite (hours_policy_local_day EST saturdayDraft saturday);
      [rewrite Hsat; reflexivity | reflexivity | discriminate..]. }
  assert (Hm : hours (hoursEffect EST mondayDraft initialWarnings) = ""%string).
  { rewrite (hours_policy_local_day EST mondayDraft (JS.mkDate 2026 1 5));
      [rewrite Hmon; reflexivity | reflexivity | discriminate..]. }
  rewrite Hs, Hm. repeat split.
Qed.

Lemma isCategoryB_restricted (c : option string) :
  isCategoryB c = true <-> restricted c.
Proof.
  unfold isCategoryB, restricted. destruct c as [s|].
  - rewrite orb_true_iff, !String.eqb_eq. split.
    + intros [H|H]; subst; auto.
    + intros [H|H]; injection H; auto.
  - split; [discriminate | intros [H|H]; discriminate].
Qed.

Lemma hasCategoryB_exists (f : string -> option string) (ids : list string) :
  existsb isCategoryB (map f ids) = true <-> exists id, In id ids /\ restricted (f id).
Proof.
  rewrite existsb_exists. split.
  - intros (c & Hc & HB). apply in_map_iff in Hc. destruct Hc as (id & <- & Hin).
    exists id. split; [assumption | apply isCategoryB_restricted, HB].
  - intros (id & Hin & HB). exists (f id). split.
    + apply in_map, Hin.
    + apply isCategoryB_restricted, HB.
Qed.

Lemma direct_not_restricted (c : option string) : direct c -> ~ restricted c.
Proof.
  intros [H|H] [R|R]; rewrite H in R; discriminate.
Qed.

(** The venue effect on a non-empty selection, by the test it makes. *)
Lemma venueEffect_nonempty (VENUES : list Venue) (venues : list ApiVenue)
      (fd : FormData) (prev : Warnings) :
  venueIds fd <> [] ->
  venueEffect VENUES venues fd prev =
    if existsb isCategoryB (map (getVenueCategory VENUES venues) (venueIds fd))
    then set_venue MSG_CATEGORY_B "warning" prev
    else set_venue MSG_CATEGORY_A "success" prev.
Proof.
  intros Hne. unfold venueEffect. destruct (venueIds fd); [congruence | reflexivity].
Qed.

Lemma venueEffect_no_restricted (VENUES : list Venue) (venues : list ApiVenue)
      (fd : FormData) (prev : Warnings) :
  venueIds fd <> [] ->
  (forall id, In id (venueIds fd) -> ~ restricted (getVenueCategory VENUES venues id)) ->
  venueEffect VENUES venues fd prev = set_venue MSG_CATEGORY_A "success" prev.
Proof.
  intros Hne Hall. rewrite venueEffect_nonempty by assumption.
  destruct (existsb _ _) eqn:E; [|reflexivity].
  apply hasCategoryB_exists in E. destruct E as (id & Hin & HB).
  exfalso. exact (Hall id Hin HB).
Qed.

Lemma uncategorised_resolves_to_nothing (VENUES : list Venue) (venues : list ApiVenue)
      (id : string) :
  uncategorised VENUES venues id -> getVenueCategory VENUES venues id = None.
Proof.
  intros [Hapi Hstatic]. unfold getVenueCategory.
  assert (Hn : normalizeVenueCategory
                 match find (fun v => String.eqb (venue_id v) id) venues with
                 | Some v => venue_category v
                 | None => None
                 end = None).
  { destruct (find _ venues) as [v|]; [|reflexivity].
    destruct (Hapi v eq_refl) as [H|H]; rewrite H; reflexivity. }
  rewrite Hn.
  destruct (find _ VENUES) as [v|]; [|reflexivity].
  apply Hstatic. reflexivity.
Qed.

(** C4, VenueApprovalClassifier: an empty selection clears the venue
    message and its tag; a non-empty selection with at least one venue that
    resolves to 'B' or 'needs_approval' gets the Category B message tagged
    warning, however many other venues it holds; a non-empty selection whose
    venues all resolve to Direct gets the Category A message tagged success;
    the legacy spellings normalize to 'A' and 'B' and other values pass
    through; and the effect never changes [submittable]. *)
Theorem venue_approval_classifier (VENUES : list Venue) (venues : list ApiVenue)
        (fd : FormData) (prev : Warnings) :
  let w := venueEffect VENUES venues fd prev in
  let category := getVenueCategory VENUES venues in
  (venueIds fd = [] -> venue w = ""%string /\ venueType w = ""%string) /\
  (venueIds fd <> [] ->
   (exists id, In id (venueIds fd) /\ restricted (category id)) ->
   venue w = MSG_CATEGORY_B /\ venueType w = "warning"%string) /\
  (venueIds fd <> [] ->
   (forall id, In id (venueIds fd) -> direct (category id)) ->
   venue w = MSG_CATEGORY_A /\ venueType w = "success"%string) /\
  submittable w = submittable prev /\
  normalizeVenueCategory (Some "auto_approval"%string) = Some "A"%string /\
  normalizeVenueCategory (Some "needs_approval"%string) = Some "B"%string /\
  normalizeVenueCategory (Some "A"%string) = Some "A"%string /\
  normalizeVenueCategory (Some "B"%string) = Some "B"%string.
Proof.
  intros w category. subst w category.
  split; [|split; [|split; [|split]]].
  - intros Hnil. unfold venueEffect. rewrite Hnil. split; reflexivity.
  - intros Hne Hex. rewrite venueEffect_nonempty by assumption.
    apply hasCategoryB_exists in Hex. rewrite Hex. split; reflexivity.
  - intros Hne Hall. rewrite venueEffect_no_restricted; [split; reflexivity | assumption |].
    intros id Hin. apply direct_not_restricted, Hall, Hin.
  - unfold venueEffect.
    destruct (venueIds fd); [reflexivity|].
    destruct (existsb _ _); reflexivity.
  - repeat split.
Qed.

(** The classifier on the sample catalog: one Category B venue in the
    selection is enough for the warning. *)
Lemma venue_approval_classifier_sample :
  venue (venueEffect sampleStatic sampleVenues mixedVenueDraft initialWarnings) = MSG_CATEGORY_B /\
  venueType (venueEffect sampleStatic sampleVenues mixedVenueDraft initialWarnings) = "warning"%string /\
  venue (venueEffect sampleStatic sampleVenues saturdayDraft initialWarnings) = MSG_CATEGORY_A /\
  venue (venueEffect sampleStatic sampleVenues noVenueDraft initialWarnings) = ""%string.
Proof.
  destruct (venue_approval_classifier sampleStatic sampleVenues mixedVenueDraft initialWarnings)
    as (_ & HB & _).
  destruct HB as [H1 H2].
  - discriminate.
  - exists "v2"%string. split; [right; left; reflexivity | left; reflexivity].
  - repeat split; assumption.
Defined.

(** C10: a non-empty selection in which no venue resolves to 'B' or
    'needs_approval' gets the Category A message tagged success; a venue
    without a category in either list, or unknown to both, counts among
    those and never triggers the approval warning. *)
Theorem direct_unless_restricted (VENUES : list Venue) (venues : list ApiVenue)
        (fd : FormData) (prev : Warnings) :
  venueIds fd <> [] ->
  (forall id, In id (venueIds fd) ->
     ~ restricted (getVenueCategory VENUES venues id) \/ uncategorised VENUES venues id) ->
  venue (venueEffect VENUES venues fd prev) = MSG_CATEGORY_A /\
  venueType (venueEffect VENUES venues fd prev) = "success"%string.
Proof.
  intros Hne Hall.
  rewrite venueEffect_no_restricted; [split; reflexivity | assumption |].
  intros id Hin. destruct (Hall id Hin) as [H|H]; [exact H|].
  rewrite (uncategorised_resolves_to_nothing _ _ _ H).
  intros [R|R]; discriminate.
Qed.

Lemma direct_unless_restricted_witness :
  venueIds ghostVenueDraft <> [] /\
  uncategorised sampleStatic sampleVenues "ghost" /\
  venue (venueEffect sampleStatic sampleVenues ghostVenueDraft initialWarnings) = MSG_CATEGORY_A /\
  venueType (venueEffect sampleStatic sampleVenues ghostVenueDraft initialWarnings) = "success"%string.
Proof.
  assert (Hghost : uncategorised sampleStatic sampleVenues "ghost").
  { split; intros v Hv; discriminate Hv. }
  split; [discriminate|]. split; [exact Hghost|].
  apply (direct_unless_restricted sampleStatic sampleVenues ghostVenueDraft initialWarnings).
  - discriminate.
  - intros id [<-|[<-|[]]].
    + left. intros [R|R]; discriminate R.
    + right. exact Hghost.
Defined.

(** ** The conflict check *)

Lemma conflict_after_response (r : ConflictResponse) (prev : Warnings) :
  onConflictResponse r prev = set_conflict (conflictOutcome r) prev.
Proof.
  destruct r as [[|] m|]; reflexivity.
Qed.

Lemma conflict_closes_gate (w : Warnings) :
  conflict w <> ""%string -> submittable w = false.
Proof.
  intros H. unfold submittable. apply negb_false_iff, hasErrors_true. auto.
Qed.

Lemma conflictEffect_complete (clubs : list ApiClub) (fd : FormData) (d : JS.CivilDate) :
  date fd = Some d ->
  startTime fd <> ""%string -> endTime fd <> ""%string -> clubName fd <> ""%string ->
  exists q, conflictEffect clubs fd = IssueRequest q /\
            q_date q = d /\ q_startTime q = startTime fd /\ q_endTime q = endTime fd.
Proof.
  intros Hd Hs He Hc. unfold conflictEffect. rewrite Hd.
  apply truthy_true in Hs. apply truthy_true in He. apply truthy_true in Hc.
  rewrite Hs, He, Hc. simpl. eexists. split; [reflexivity|]. repeat split.
Qed.

Lemma nth_error_snoc {A} (l : list A) (x : A) :
  nth_error (l ++ [x]) (length l) = Some x.
Proof.
  rewrite nth_error_app2 by lia. rewrite Nat.sub_diag. reflexivity.
Qed.

Lemma removeAt_snoc {A} (l : list A) (x : A) :
  removeAt (length l) (l ++ [x]) = l.
Proof.
  unfold removeAt. rewrite firstn_app, Nat.sub_diag, firstn_all.
  rewrite (skipn_all2 (n := S (length l))) by (rewrite length_app; simpl; lia).
  simpl. rewrite !app_nil_r. reflexivity.
Qed.

(** C5, ConflictChecker: on a draft with date, start, end and club present
    the conflict effect sends one request and leaves the slots alone until
    the answer comes; a failed call puts the exact could-not-verify warning
    in the Conflict slot and closes the gate; an answer with
    [hasConflict = true] puts the authority's message there (closing the gate
    when the message is non-empty), and one with [hasConflict = false] clears
    the slot.  No other slot is touched. *)
Theorem conflict_check_fail_closed (tz : Z) (VENUES : list Venue) (s : State)
        (d : JS.CivilDate) (r : ConflictResponse) :
  date (formData s) = Some d ->
  startTime (formData s) <> ""%string -> endTime (formData s) <> ""%string ->
  clubName (formData s) <> ""%string ->
  let s1 := step tz VENUES s RunConflict in
  let s2 := step tz VENUES s1 (ConflictSettled (length (pending s)) r) in
  (exists q, pending s1 = (pending s ++ [q])%list) /\
  warnings s1 = warnings s /\
  pending s2 = pending s /\
  warnings s2 = set_conflict (conflictOutcome r) (warnings s) /\
  (r = Rejected ->
     conflict (warnings s2) = MSG_CONFLICT_UNVERIFIED /\ submittable (warnings s2) = false) /\
  (forall m, r = Resolved true m ->
     conflict (warnings s2) = m /\ (m <> ""%string -> submittable (warnings s2) = false)) /\
  (forall m, r = Resolved false m -> conflict (warnings s2) = ""%string).
Proof.
  intros Hd Hs He Hc s1 s2.
  destruct (conflictEffect_complete (clubs s) (formData s) d Hd Hs He Hc) as (q & Hq & _).
  assert (H1 : s1 = mkState (formData s) (warnings s) (clubs s) (venues s)
                            (pending s ++ [q])%list).
  { subst s1. simpl. rewrite Hq. reflexivity. }
  assert (H2 : s2 = mkState (formData s) (onConflictResponse r (warnings s))
                            (clubs s) (venues s) (pending s)).
  { subst s2. rewrite H1. simpl. rewrite nth_error_snoc, removeAt_snoc. reflexivity. }
  clearbody s2. clearbody s1. subst s1 s2. simpl. rewrite conflict_after_response.
  split; [exists q; reflexivity|].
  repeat (split; [reflexivity|]).
  split; [|split].
  - intros ->. split; [reflexivity|].
    apply conflict_closes_gate. discriminate.
  - intros m ->. split; [reflexivity|].
    intros Hm. apply conflict_closes_gate. exact Hm.
  - intros m ->. reflexivity.
Qed.

Lemma conflict_check_fail_closed_witness :
  let s := run IST sampleStatic initialState fillDraft in
  let s2 := run IST sampleStatic s [RunConflict; ConflictSettled (length (pending s)) Rejected] in
  date (formData s) = Some tuesday /\
  conflict (warnings s2) = MSG_CONFLICT_UNVERIFIED /\
  submittable (warnings s2) = false.
Proof.
  split; [reflexivity|].
  destruct (conflict_check_fail_closed IST sampleStatic
              (run IST sampleStatic initialState fillDraft) tuesday Rejected eq_refl)
    as (_ & _ & _ & _ & Hrej & _); try discriminate.
  exact (Hrej eq_refl).
Defined.

Lemma step_settled_conflict (tz : Z) (VENUES : list Venue) (s : State) (i : nat)
      (r : ConflictResponse) (q : ConflictQuery) :
  nth_error (pending s) i = Some q ->
  conflict (warnings (step tz VENUES s (ConflictSettled i r))) = conflictOutcome r.
Proof.
  intros H. simpl. rewrite H. simpl. rewrite conflict_after_response. reflexivity.
Qed.

(** C6 as worded fails: the request for D1 (free) is sent, the draft moves to
    D2 (which clashes) and its request is sent; D2's answer arrives first and
    D1's after it.  The form ends on draft D2 with an empty Conflict slot and
    an open gate, although the answer for D2 reports a clash. *)
Lemma stale_response_overwrites :
  let issued := run IST sampleStatic initialState fillDraft in
  let final := run IST sampleStatic issued reorderedAnswers in
  pending issued = [queryD1; queryD2] /\
  endTime (formData final) = "19:00"%string /\
  conflictOutcome answerD2 = "Auditorium is already booked from 18:00 to 19:00."%string /\
  conflict (warnings final) = ""%string /\
  conflict (warnings final) <> conflictOutcome answerD2 /\
  submittable (warnings final) = true.
Proof.
  cbv zeta.
  assert (Hfinal : conflict (warnings (run IST sampleStatic
            (run IST sampleStatic initialState fillDraft) reorderedAnswers)) = ""%string)
    by reflexivity.
  rewrite Hfinal.
  repeat split. discriminate.
Qed.

(** C6 as the code has it: answers are applied as they arrive and nothing
    compares an answer with the current draft.  After two requests in flight
    have settled, the Conflict slot holds the outcome of the answer that
    arrived last, whichever of the two was sent first; both requests are gone
    from the ones in flight. *)
Theorem last_response_wins (tz : Z) (VENUES : list Venue) (s : State) (i j : nat)
        (first last : ConflictResponse) (qi qj : ConflictQuery) :
  nth_error (pending s) i = Some qi ->
  nth_error (removeAt i (pending s)) j = Some qj ->
  let final := run tz VENUES s [ConflictSettled i first; ConflictSettled j last] in
  conflict (warnings final) = conflictOutcome last /\
  pending final = removeAt j (removeAt i (pending s)) /\
  formData final = formData s.
Proof.
  intros Hi Hj final.
  assert (H1 : step tz VENUES s (ConflictSettled i first) =
               mkState (formData s) (onConflictResponse first (warnings s))
                       (clubs s) (venues s) (removeAt i (pending s))).
  { simpl. rewrite Hi. reflexivity. }
  assert (H2 : final =
               mkState (formData s)
                       (onConflictResponse last (onConflictResponse first (warnings s)))
                       (clubs s) (venues s) (removeAt j (removeAt i (pending s)))).
  { subst final. unfold run. cbn [fold_left]. rewrite H1.
    cbn [step pending]. rewrite Hj. reflexivity. }
  rewrite H2. cbn [warnings pending formData].
  rewrite conflict_after_response. repeat split.
Qed.

Lemma last_response_wins_witness :
  let issued := run IST sampleStatic initialState fillDraft in
  nth_error (pending issued) 1 = Some queryD2 /\
  nth_error (removeAt 1 (pending issued)) 0 = Some queryD1 /\
  conflict (warnings (run IST sampleStatic issued reorderedAnswers)) = conflictOutcome answerD1.
Proof.
  split; [reflexivity|]. split; [reflexivity|].
  apply (last_response_wins IST sampleStatic (run IST sampleStatic initialState fillDraft)
           1%nat 0%nat answerD2 answerD1 queryD2 queryD1); reflexivity.
Defined.

(** ** Invariants of the mounted form *)

(** Whatever holds initially and is kept by every step holds throughout. *)
Lemma run_invariant (tz : Z) (VENUES : list Venue) (P : State -> Prop) :
  (forall s e, P s -> P (step tz VENUES s e)) ->
  forall s es, P s -> P (run tz VENUES s es).
Proof.
  intros Hstep s es. revert s. induction es as [|e es IH]; intros s Hs.
  - exact Hs.
  - simpl. apply IH, Hstep, Hs.
Qed.

Lemma includes_In (id : string) (l : list string) :
  existsb (String.eqb id) l = true <-> In id l.
Proof.
  rewrite existsb_exists. split.
  - intros (x & Hx & E). apply String.eqb_eq in E. subst. exact Hx.
  - intros H. exists id. split; [exact H | apply String.eqb_refl].
Qed.

Lemma toggle_present (id : string) (fd : FormData) :
  In id (venueIds fd) ->
  venueIds (handleVenueToggle id fd) =
    filter (fun x => negb (String.eqb x id)) (venueIds fd) /\
  ~ In id (venueIds (handleVenueToggle id fd)).
Proof.
  intros H. unfold handleVenueToggle. simpl.
  apply includes_In in H. rewrite H. split; [reflexivity|].
  rewrite filter_In. intros [_ E]. rewrite String.eqb_refl in E. discriminate.
Qed.

Lemma toggle_absent (id : string) (fd : FormData) :
  ~ In id (venueIds fd) ->
  venueIds (handleVenueToggle id fd) = (venueIds fd ++ [id])%list.
Proof.
  intros H. unfold handleVenueToggle. simpl.
  destruct (existsb (String.eqb id) (venueIds fd)) eqn:E; [|reflexivity].
  apply includes_In in E. contradiction.
Qed.

Lemma toggle_NoDup (id : string) (fd : FormData) :
  NoDup (venueIds fd) -> NoDup (venueIds (handleVenueToggle id fd)).
Proof.
  intros Hnd. destruct (in_dec string_dec id (venueIds fd)) as [Hin|Hout].
  - destruct (toggle_present id fd Hin) as [-> _]. apply NoDup_filter, Hnd.
  - rewrite (toggle_absent id fd Hout).
    apply NoDup_app; [exact Hnd | repeat constructor; intros [] |].
    intros a Ha [<-|[]]. contradiction.
Qed.

Lemma handleChange_venueIds (c : FieldChange) (fd : FormData) :
  venueIds (handleChange c fd) = venueIds fd.
Proof.
  destruct c; reflexivity.
Qed.

Lemma step_NoDup (tz : Z) (VENUES : list Venue) (s : State) (e : Event) :
  NoDup (venueIds (formData s)) -> NoDup (venueIds (formData (step tz VENUES s e))).
Proof.
  intros H. destruct e; simpl; try exact H.
  - rewrite handleChange_venueIds. exact H.
  - apply toggle_NoDup, H.
  - destruct (conflictEffect _ _); exact H.
  - destruct (nth_error _ _); exact H.
Qed.

(** C9: the selected venue identifiers never hold a duplicate.  The
    selection starts empty, no event of the form other than a venue toggle
    changes it, and a toggle keeps it duplicate-free: toggling an identifier
    that is present removes it, toggling an absent one appends it once. *)
Theorem venue_selection_no_duplicates (tz : Z) (VENUES : list Venue)
        (es : list Event) (toggles : list string) (venueId : string) (fd : FormData) :
  NoDup (venueIds (formData (run tz VENUES initialState es))) /\
  NoDup (venueIds (fold_left (fun prev id => handleVenueToggle id prev) toggles
                             initialFormData)) /\
  (In venueId (venueIds fd) -> ~ In venueId (venueIds (handleVenueToggle venueId fd))) /\
  (~ In venueId (venueIds fd) ->
     venueIds (handleVenueToggle venueId fd) = (venueIds fd ++ [venueId])%list) /\
  (forall c, venueIds (handleChange c fd) = venueIds fd).
Proof.
  split; [|split; [|split; [|split]]].
  - apply (run_invariant tz VENUES (fun s => NoDup (venueIds (formData s)))).
    + intros s e. apply step_NoDup.
    + constructor.
  - assert (Hgen : forall ids start, NoDup (venueIds start) ->
              NoDup (venueIds (fold_left (fun prev id => handleVenueToggle id prev) ids start))).
    { induction ids as [|id ids IH]; intros start Hs; simpl.
      - exact Hs.
      - apply IH, toggle_NoDup, Hs. }
    apply Hgen. constructor.
  - intros H. apply (toggle_present venueId fd H).
  - apply toggle_absent.
  - intros c. apply handleChange_venueIds.
Qed.

Lemma venue_selection_toggle_sample :
  venueIds (fold_left (fun prev id => handleVenueToggle id prev)
                      ["v1"; "v2"; "v1"; "v3"; "v3"; "v1"]%string initialFormData)
  = ["v2"; "v1"]%string /\
  NoDup (venueIds (fold_left (fun prev id => handleVenueToggle id prev)
                      ["v1"; "v2"; "v1"; "v3"; "v3"; "v1"]%string initialFormData)).
Proof.
  split; [reflexivity|].
  apply (venue_selection_no_duplicates IST sampleStatic []
           ["v1"; "v2"; "v1"; "v3"; "v3"; "v1"]%string "v1"%string initialFormData).
Defined.

Lemma step_timeline_without_date (tz : Z) (VENUES : list Venue) (s : State) (e : Event) :
  (date (formData s) = None -> timeline (warnings s) = ""%string) ->
  date (formData (step tz VENUES s e)) = None ->
  timeline (warnings (step tz VENUES s e)) = ""%string.
Proof.
  intros Inv. destruct e; simpl; try exact Inv.
  - destruct c; simpl; try exact Inv. discriminate.
  - unfold timelineEffect. destruct (date (formData s)); [discriminate | exact Inv].
  - unfold venueEffect. destruct (venueIds (formData s)); [exact Inv|].
    destruct (existsb _ _); exact Inv.
  - unfold hoursEffect. destruct (date (formData s)); [discriminate|]. exact Inv.
  - destruct (conflictEffect _ _); exact Inv.
  - destruct (nth_error _ _); [|exact Inv].
    simpl. rewrite conflict_after_response. exact Inv.
Qed.

(** As long as no date has been picked the Timeline slot is empty. *)
Lemma timeline_without_date (tz : Z) (VENUES : list Venue) (es : list Event) :
  date (formData (run tz VENUES initialState es)) = None ->
  timeline (warnings (run tz VENUES initialState es)) = ""%string.
Proof.
  apply (run_invariant tz VENUES
           (fun s => date (formData s) = None -> timeline (warnings s) = ""%string)).
  - intros s e. apply step_timeline_without_date.
  - reflexivity.
Qed.

(** A date, once picked, is never cleared. *)
Lemma date_stays_picked (tz : Z) (VENUES : list Venue) (s : State) (es : list Event) :
  date (formData s) <> None -> date (formData (run tz VENUES s es)) <> None.
Proof.
  apply (run_invariant tz VENUES (fun s => date (formData s) <> None)).
  intros s0 e H. destruct e; simpl; try exact H.
  - destruct c; simpl; try exact H. discriminate.
  - destruct (conflictEffect _ _); exact H.
  - destruct (nth_error _ _); exact H.
Qed.

(** C8: in every state the form can reach, when no date is selected the
    Timeline slot is empty, and the timeline effect, whenever it runs,
    evaluates nothing: it leaves every slot as it was. *)
Theorem no_date_no_timeline_warning (tz : Z) (VENUES : list Venue)
        (es : list Event) (today : Z) :
  let s := run tz VENUES initialState es in
  date (formData s) = None ->
  timeline (warnings s) = ""%string /\
  timelineEffect today (formData s) (warnings s) = warnings s /\
  timeline (warnings (step tz VENUES s (RunTimeline today))) = ""%string.
Proof.
  intros s Hnone.
  assert (Hskip : timelineEffect today (formData s) (warnings s) = warnings s).
  { unfold timelineEffect. rewrite Hnone. reflexivity. }
  assert (Hempty : timeline (warnings s) = ""%string).
  { apply timeline_without_date, Hnone. }
  split; [exact Hempty|]. split; [exact Hskip|].
  simpl. rewrite Hskip. exact Hempty.
Qed.

Lemma no_date_no_timeline_warning_witness :
  let s := run IST sampleStatic initialState
               [MetaLoaded sampleClubs sampleVenues; Change (SetEventType co_curricular);
                RunTimeline newYearMorning; VenueToggle "v1"; RunVenue; RunHours; RunConflict] in
  date (formData s) = None /\
  timeline (warnings s) = ""%string /\
  timelineEffect newYearMorning (formData s) (warnings s) = warnings s /\
  timeline (warnings (step IST sampleStatic s (RunTimeline newYearMorning))) = ""%string.
Proof.
  split; [reflexivity|].
  apply (no_date_no_timeline_warning IST sampleStatic
           [MetaLoaded sampleClubs sampleVenues; Change (SetEventType co_curricular);
            RunTimeline newYearMorning; VenueToggle "v1"; RunVenue; RunHours; RunConflict]
           newYearMorning).
  reflexivity.
Defined.

(** ** Determinism of an evaluation *)







(** ** The date picker *)

(** Day numbers and calendar dates: going to the date and back is the
    identity. *)
Lemma daysFromCivil_civilFromDays (z : Z) :
  JS.daysFromCivil (civilFromDays z) = z.
Proof.
  unfold civilFromDays.
  set (z1 := z + 719468).
  set (era := z1 / 146097).
  set (doe := z1 - era * 146097).
  assert (Hdoe : 0 <= doe <= 146096).
  { subst doe era. pose proof (Z.mod_pos_bound z1 146097 ltac:(lia)) as Hm.
    rewrite Z.mod_eq in Hm by lia. lia. }
  set (yoe := (doe - doe / 1460 + doe / 36524 - doe / 146096) / 365).
  assert (Hyoe : 0 <= yoe <= 399).
  { subst yoe. clearbody doe. Z.div_mod_to_equations. lia. }
  set (doy := doe - (365 * yoe + yoe / 4 - yoe / 100)).
  assert (Hdoy : 0 <= doy <= 365).
  { subst doy yoe. clearbody doe. Z.div_mod_to_equations. lia. }
  set (mp := (5 * doy + 2) / 153).
  assert (Hmp : 0 <= mp <= 11).
  { subst mp. clearbody doy. Z.div_mod_to_equations. lia. }
  clearbody mp.
  unfold JS.daysFromCivil. cbn [JS.year JS.month JS.day].
  assert (Hy : (if (if mp <? 10 then mp + 3 else mp - 9) <=? 2
                then (if (if mp <? 10 then mp + 3 else mp - 9) <=? 2
                      then yoe + era * 400 + 1 else yoe + era * 400) - 1
                else (if (if mp <? 10 then mp + 3 else mp - 9) <=? 2
                      then yoe + era * 400 + 1 else yoe + era * 400))
               = yoe + era * 400).
  { destruct (_ <=? 2); lia. }
  rewrite Hy.
  assert (Hm : (if 2 <? (if mp <? 10 then mp + 3 else mp - 9)
                then (if mp <? 10 then mp + 3 else mp - 9) - 3
                else (if mp <? 10 then mp + 3 else mp - 9) + 9) = mp).
  { destruct (mp <? 10) eqn:E.
    - apply Z.ltb_lt in E. destruct (2 <? mp + 3) eqn:E2; [lia|].
      apply Z.ltb_ge in E2. lia.
    - apply Z.ltb_ge in E. destruct (2 <? mp - 9) eqn:E2; [|lia].
      apply Z.ltb_lt in E2. lia. }
  rewrite Hm.
  assert (Hera : (yoe + era * 400) / 400 = era).
  { rewrite Z.div_add by lia. rewrite Z.div_small by lia. lia. }
  rewrite Hera.
  replace (yoe + era * 400 - era * 400) with yoe by lia.
  subst doy doe z1. lia.
Qed.

Lemma localDay_of_midnight_east (tz : Z) (n : Z) :
  0 <= tz < 1440 -> localDay tz (n * JS.msPerDay) = n.
Proof.
  intros Htz. unfold localDay.
  rewrite Z.add_comm, Z.div_add by (pose proof msPerDay_pos; lia).
  rewrite Z.div_small by (unfold JS.msPerDay; lia). lia.
Qed.

Lemma localDay_of_midnight_west (tz : Z) (n : Z) :
  -1440 <= tz < 0 -> localDay tz (n * JS.msPerDay) = n - 1.
Proof.
  intros Htz. unfold localDay.
  replace (n * JS.msPerDay + tz * 60000)
    with ((tz * 60000 + JS.msPerDay) + (n - 1) * JS.msPerDay) by lia.
  rewrite Z.div_add by (pose proof msPerDay_pos; lia).
  rewrite Z.div_small by (unfold JS.msPerDay; lia). lia.
Qed.

Lemma date_after_selection (tz : Z) (t : Z) (fd : FormData) :
  date (dateSelectedEffect tz (Some t) fd) = Some (localDate tz t).
Proof. reflexivity. Qed.

(** X1: Where local time is not behind UTC, the date a pick leaves in the draft
    is a fixed point of the two sync effects: parsing it and writing it back
    gives the same draft, so the effects come to rest after one round. *)
Theorem date_pick_settles_east_of_utc (tz : Z) (t : Z) (fd : FormData) :
  0 <= tz < 1440 ->
  let picked := dateSelectedEffect tz (Some t) fd in
  syncRound tz picked = picked /\
  date picked = Some (localDate tz t) /\
  JS.daysFromCivil (localDate tz t) = localDay tz t.
Proof.
  intros Htz picked.
  assert (Hday : JS.daysFromCivil (localDate tz t) = localDay tz t).
  { apply daysFromCivil_civilFromDays. }
  split; [|split; [reflexivity | exact Hday]].
  subst picked. unfold syncRound, dateParsedEffect. rewrite date_after_selection.
  unfold dateSelectedEffect at 1.
  assert (Hback : localDate tz (JS.parseDateOnly (localDate tz t)) = localDate tz t).
  { unfold localDate at 1. unfold JS.parseDateOnly. rewrite Hday.
    rewrite (localDay_of_midnight_east tz _ Htz). reflexivity. }
  rewrite Hback. reflexivity.
Qed.

Lemma date_pick_settles_east_of_utc_witness :
  0 <= IST < 1440 /\
  date (dateSelectedEffect IST (Some newYearMorning) initialFormData) = Some (JS.mkDate 2026 1 1) /\
  syncRound IST (dateSelectedEffect IST (Some newYearMorning) initialFormData)
    = dateSelectedEffect IST (Some newYearMorning) initialFormData.
Proof.
  split; [unfold IST; lia|]. split; [reflexivity|].
  apply (date_pick_settles_east_of_utc IST newYearMorning initialFormData).
  unfold IST; lia.
Defined.

Lemma syncRound_date_west (tz : Z) (fd : FormData) (d : JS.CivilDate) :
  -1440 <= tz < 0 -> date fd = Some d ->
  exists d', date (syncRound tz fd) = Some d' /\
             JS.daysFromCivil d' = JS.daysFromCivil d - 1.
Proof.
  intros Htz Hd. unfold syncRound, dateParsedEffect. rewrite Hd.
  exists (localDate tz (JS.parseDateOnly d)). split; [reflexivity|].
  unfold localDate, JS.parseDateOnly.
  rewrite daysFromCivil_civilFromDays. apply localDay_of_midnight_west, Htz.
Qed.

(** X2: Where local time is behind UTC the two sync effects never come to rest:
    every round writes the day before into the draft, so after [n] rounds
    the date has moved [n] days back. *)
Theorem date_runs_back_west_of_utc (tz : Z) (fd : FormData) (d : JS.CivilDate) (n : nat) :
  -1440 <= tz < 0 -> date fd = Some d ->
  exists d', date (Nat.iter n (syncRound tz) fd) = Some d' /\
             JS.daysFromCivil d' = JS.daysFromCivil d - Z.of_nat n.
Proof.
  intros Htz Hd. induction n as [|n IH].
  - exists d. split; [exact Hd | simpl; lia].
  - destruct IH as (d1 & Hd1 & Hn).
    destruct (syncRound_date_west tz _ d1 Htz Hd1) as (d2 & Hd2 & Hstep).
    exists d2. split; [exact Hd2 | lia].
Qed.

Lemma date_runs_back_west_of_utc_witness :
  -1440 <= EST < 0 /\ date saturdayDraft = Some saturday /\
  date (Nat.iter 2 (syncRound EST) saturdayDraft) = Some (JS.mkDate 2026 1 1) /\
  exists d', date (Nat.iter 2 (syncRound EST) saturdayDraft) = Some d' /\
             JS.daysFromCivil d' = JS.daysFromCivil saturday - 2.
Proof.
  split; [unfold EST; lia|]. split; [reflexivity|]. split; [reflexivity|].
  apply (date_runs_back_west_of_utc EST saturdayDraft saturday 2); [unfold EST; lia | reflexivity].
Defined.

Lemma disabled_iff_earlier_day (tz : Z) (now cell : Z) :
  calendarDisabled tz now cell = true <-> localDay tz cell < localDay tz now.
Proof.
  unfold calendarDisabled, setHoursMidnight. rewrite Z.ltb_lt.
  pose proof msPerDay_pos as Hpos.
  unfold localDay at 2.
  split; intros H.
  - apply Z.div_lt_upper_bound; [exact Hpos | lia].
  - destruct (Z_lt_ge_dec (cell + tz * 60000) (JS.msPerDay * localDay tz now))
      as [Hlt|Hge]; [lia|].
    apply Z.ge_le in Hge.
    apply (Z.div_le_lower_bound _ _ _ Hpos) in Hge. lia.
Qed.

(** X3: The calendar greys out exactly the instants that fall on an earlier
    local day than the current one, in every time zone: today and every
    later day can be picked, whatever the time of day. *)
Theorem calendar_disables_earlier_days (tz : Z) (now cell : Z) :
  (calendarDisabled tz now cell = true <-> localDay tz cell < localDay tz now) /\
  calendarDisabled tz now now = false /\
  calendarDisabled tz now (setHoursMidnight tz now) = false.
Proof.
  split; [apply disabled_iff_earlier_day|].
  split.
  - destruct (calendarDisabled tz now now) eqn:E; [|reflexivity].
    apply disabled_iff_earlier_day in E. lia.
  - unfold calendarDisabled. apply Z.ltb_irrefl.
Qed.

(** How far the local day is ahead of the UTC day, east of Greenwich: not
    at all, or by one during the last [tz] minutes of the UTC day. *)
Lemma localDay_ahead (tz : Z) (now : Z) :
  0 <= tz < 1440 ->
  localDay tz now - calendarDay now =
    (if now mod JS.msPerDay + tz * 60000 <? JS.msPerDay then 0 else 1).
Proof.
  intros Htz. unfold localDay, calendarDay.
  pose proof msPerDay_pos as Hpos.
  pose proof (Z.div_mod now JS.msPerDay ltac:(lia)) as Hdm.
  pose proof (Z.mod_pos_bound now JS.msPerDay Hpos) as Hr.
  set (r := now mod JS.msPerDay) in *. set (u := now / JS.msPerDay) in *.
  replace (now + tz * 60000) with ((r + tz * 60000) + u * JS.msPerDay) by lia.
  rewrite Z.div_add by lia.
  destruct (r + tz * 60000 <? JS.msPerDay) eqn:E.
  - apply Z.ltb_lt in E. rewrite Z.div_small by lia. lia.
  - apply Z.ltb_ge in E.
    replace (r + tz * 60000) with ((r + tz * 60000 - JS.msPerDay) + 1 * JS.msPerDay) by lia.
    rewrite Z.div_add by lia. rewrite Z.div_small; [lia|].
    unfold JS.msPerDay in *. lia.
Qed.

(** X4: East of Greenwich, a day the calendar lets the user pick never has a
    negative lead time: [diffDays] is the number of local days between today
    and the picked day, or one more than that. *)
Theorem pickable_day_lead_time (tz : Z) (now t : Z) (fd : FormData) :
  0 <= tz < 1440 ->
  calendarDisabled tz now t = false ->
  let d := localDate tz t in
  date (dateSelectedEffect tz (Some t) fd) = Some d /\
  diffDays now d = (localDay tz t - localDay tz now) + (localDay tz now - calendarDay now) /\
  0 <= localDay tz t - localDay tz now /\
  0 <= localDay tz now - calendarDay now <= 1.
Proof.
  intros Htz Hpick d. subst d.
  split; [reflexivity|].
  rewrite diffDays_calendar. unfold localDate. rewrite daysFromCivil_civilFromDays.
  split; [lia|]. split.
  - destruct (Z_lt_ge_dec (localDay tz t) (localDay tz now)) as [Hlt|Hge]; [|lia].
    apply disabled_iff_earlier_day in Hlt. congruence.
  - rewrite (localDay_ahead tz now Htz). destruct (_ <? _); lia.
Qed.

Lemma pickable_day_lead_time_witness :
  0 <= IST < 1440 /\
  calendarDisabled IST newYearMorning newYearMorning = false /\
  diffDays newYearMorning (localDate IST newYearMorning) = 0.
Proof.
  split; [unfold IST; lia|]. split; [reflexivity|].
  destruct (pickable_day_lead_time IST newYearMorning newYearMorning initialFormData)
    as (_ & Hd & _); [unfold IST; lia | reflexivity |].
  rewrite Hd. reflexivity.
Defined.

Lemma timelineEffect_message (today : Z) (fd : FormData) (d : JS.CivilDate) (prev : Warnings) :
  date fd = Some d ->
  timeline (timelineEffect today fd prev) =
    (if diffDays today d <? threshold (eventType fd)
     then violationMessage (eventType fd) else ""%string).
Proof.
  intros Hd. unfold timelineEffect. rewrite Hd.
  destruct (eventType fd); simpl; destruct (_ <? _); reflexivity.
Qed.

Lemma violationMessage_nonempty (t : EventType) : violationMessage t <> ""%string.
Proof. destruct t; discriminate. Qed.

(** X5: A closed-club booking for the current local day, east of Greenwich: it
    is refused while the UTC day is the same as the local one, and accepted
    during the first [tz] minutes after local midnight, when the UTC day is
    still yesterday. *)
Theorem same_day_closed_club (tz : Z) (now t : Z) (fd : FormData) (prev : Warnings) :
  0 <= tz < 1440 ->
  eventType fd = closed_club ->
  localDay tz t = localDay tz now ->
  timeline (timelineEffect now (dateSelectedEffect tz (Some t) fd) prev) =
    (if now mod JS.msPerDay + tz * 60000 <? JS.msPerDay then MSG_CLOSED_CLUB else ""%string).
Proof.
  intros Htz Htype Hsame.
  rewrite (timelineEffect_message now _ (localDate tz t)) by reflexivity.
  assert (Ht : eventType (dateSelectedEffect tz (Some t) fd) = closed_club) by exact Htype.
  rewrite Ht. cbn [threshold violationMessage].
  rewrite diffDays_calendar. unfold localDate. rewrite daysFromCivil_civilFromDays.
  rewrite Hsame. pose proof (localDay_ahead tz now Htz) as Hahead.
  destruct (now mod JS.msPerDay + tz * 60000 <? JS.msPerDay).
  - replace (localDay tz now - calendarDay now) with 0 by lia. reflexivity.
  - replace (localDay tz now - calendarDay now) with 1 by lia. reflexivity.
Qed.

(** 2 January 2026 at 02:00 in India is 1 January, 20:30 UTC. *)
Lemma same_day_closed_club_witness :
  0 <= IST < 1440 /\
  localDate IST (newYearMorning + 37800000) = JS.mkDate 2026 1 2 /\
  timeline (timelineEffect (newYearMorning + 37800000)
              (dateSelectedEffect IST (Some (newYearMorning + 37800000)) initialFormData)
              initialWarnings) = ""%string.
Proof.
  split; [unfold IST; lia|]. split; [reflexivity|].
  rewrite (same_day_closed_club IST (newYearMorning + 37800000) (newYearMorning + 37800000)
             initialFormData initialWarnings); [reflexivity | unfold IST; lia | reflexivity..].
Defined.

(** X6: The lead-time rule is monotone: on one day of evaluation, a date that
    passes for an event type makes every later date pass for it, and a date
    that passes for a co-curricular event passes for an open-for-all one, and
    one that passes for an open-for-all event passes for a closed-club one. *)
Theorem lead_time_monotone (today : Z) (fd : FormData) (d d' : JS.CivilDate)
        (prev : Warnings) :
  JS.daysFromCivil d <= JS.daysFromCivil d' ->
  let at_ (ty : EventType) (day : JS.CivilDate) :=
    timeline (timelineEffect today
                (handleChange (SetDate day) (handleChange (SetEventType ty) fd)) prev) in
  (forall ty, at_ ty d = ""%string -> at_ ty d' = ""%string) /\
  (at_ co_curricular d = ""%string -> at_ open_all d = ""%string) /\
  (at_ open_all d = ""%string -> at_ closed_club d = ""%string).
Proof.
  intros Hle at_.
  assert (Hat : forall ty day, at_ ty day =
            if diffDays today day <? threshold ty then violationMessage ty else ""%string).
  { intros ty day. subst at_. cbv beta.
    rewrite (timelineEffect_message today _ day) by reflexivity. reflexivity. }
  assert (Hpass : forall ty day, at_ ty day = ""%string <-> threshold ty <= diffDays today day).
  { intros ty day. rewrite Hat. destruct (_ <? _) eqn:E.
    - apply Z.ltb_lt in E. split; [|lia].
      intros H. exfalso. exact (violationMessage_nonempty ty H).
    - apply Z.ltb_ge in E. tauto. }
  repeat split.
  - intros ty. rewrite !Hpass, !diffDays_calendar. lia.
  - rewrite !Hpass. simpl. lia.
  - rewrite !Hpass. simpl. lia.
Qed.

Lemma lead_time_monotone_witness :
  JS.daysFromCivil tuesday <= JS.daysFromCivil (JS.mkDate 2026 2 20) /\
  timeline (timelineEffect newYearMorning
              (handleChange (SetDate tuesday) (handleChange (SetEventType open_all) tuesdayDraft))
              initialWarnings) = MSG_OPEN_ALL /\
  (timeline (timelineEffect newYearMorning
              (handleChange (SetDate tuesday) (handleChange (SetEventType open_all) tuesdayDraft))
              initialWarnings) = ""%string ->
   timeline (timelineEffect newYearMorning
              (handleChange (SetDate tuesday) (handleChange (SetEventType closed_club) tuesdayDraft))
              initialWarnings) = ""%string).
Proof.
  split; [vm_compute; discriminate|]. split; [reflexivity|].
  destruct (lead_time_monotone newYearMorning tuesdayDraft tuesday (JS.mkDate 2026 2 20)
              initialWarnings) as (_ & _ & H).
  - vm_compute. discriminate.
  - exact H.
Defined.

(** ** The time selects *)

Lemma TIME_OPTIONS_generated : TIME_OPTIONS = generateTimeOptions.
Proof. vm_compute. reflexivity. Qed.

(** X7: [generateTimeOptions] lists exactly the quarter hours of a day, each
    once and in ascending order: 96 texts [HH:MM] with [HH] below 24 and
    [MM] one of 00, 15, 30, 45, the [k]-th standing for minute [15 k]. *)
Theorem time_options_are_quarter_hours (s : string) :
  (In s TIME_OPTIONS <->
   exists h q : nat, (h < 24)%nat /\ (q < 4)%nat /\
                     s = (JS.pad2 h ++ ":" ++ JS.pad2 (15 * q))%string) /\
  length TIME_OPTIONS = 96%nat /\
  map minutesOf TIME_OPTIONS = map (fun k => 15 * Z.of_nat k) (seq 0 96) /\
  NoDup TIME_OPTIONS.
Proof.
  split; [|split; [reflexivity | split; [vm_compute; reflexivity|]]].
  - rewrite TIME_OPTIONS_generated. unfold generateTimeOptions.
    rewrite in_flat_map. split.
    + intros (h & Hh & Hs). apply in_seq in Hh. apply in_map_iff in Hs.
      destruct Hs as (minute & <- & Hm). exists h.
      destruct Hm as [<-|[<-|[<-|[<-|[]]]]];
        [exists 0%nat | exists 1%nat | exists 2%nat | exists 3%nat];
        (split; [lia | split; [lia | reflexivity]]).
    + intros (h & q & Hh & Hq & ->). exists h. split; [apply in_seq; lia|].
      apply in_map_iff.
      destruct q as [|[|[|[|q]]]]; [| | | |lia].
      * exists "00"%string. split; [reflexivity | simpl; auto].
      * exists "15"%string. split; [reflexivity | simpl; auto].
      * exists "30"%string. split; [reflexivity | simpl; auto].
      * exists "45"%string. split; [reflexivity | simpl; auto].
  - assert (Hnd : nodup string_dec TIME_OPTIONS = TIME_OPTIONS) by (vm_compute; reflexivity).
    rewrite <- Hnd. apply NoDup_nodup.
Qed.

Lemma option_minutes (s : string) :
  In s TIME_OPTIONS ->
  0 <= minutesOf s <= 1425 /\ minutesOf s mod 15 = 0 /\ s <> ""%string.
Proof.
  intros Hs.
  assert (Hall : forallb (fun x => (0 <=? minutesOf x) && (minutesOf x <=? 1425)
                                   && (minutesOf x mod 15 =? 0) && JS.truthy x)
                         TIME_OPTIONS = true) by (vm_compute; reflexivity).
  rewrite forallb_forall in Hall. specialize (Hall s Hs).
  rewrite !andb_true_iff in Hall. destruct Hall as [[[H1 H2] H3] H4].
  apply Z.leb_le in H1. apply Z.leb_le in H2. apply Z.eqb_eq in H3.
  apply truthy_true in H4. auto.
Qed.

Lemma hoursEffect_in_minutes (tz : Z) (fd : FormData) (d : JS.CivilDate) (prev : Warnings) :
  date fd = Some d ->
  In (startTime fd) TIME_OPTIONS -> In (endTime fd) TIME_OPTIONS ->
  let day := JS.getDay tz (JS.parseDateOnly d) in
  let start := minutesOf (startTime fd) in
  let end_ := minutesOf (endTime fd) in
  hours (hoursEffect tz fd prev) =
    if end_ <=? start then MSG_END_BEFORE_START
    else if (day =? 0) || (day =? 6) then
      (if start <? 8 * 60 then MSG_WEEKEND else ""%string)
    else
      (if start <? 16 * 60 then MSG_WEEKDAY else ""%string).
Proof.
  intros Hd Hs He day start end_.
  destruct (option_minutes _ Hs) as (_ & _ & Hs0).
  destruct (option_minutes _ He) as (_ & _ & He0).
  rewrite (hours_policy_local_day tz fd d prev Hd Hs0 He0). cbv zeta. fold day.
  assert (H8 : In "08:00"%string TIME_OPTIONS) by (vm_compute; tauto).
  assert (H16 : In "16:00"%string TIME_OPTIONS) by (vm_compute; tauto).
  destruct (time_options_order _ _ He Hs) as [-> _].
  destruct (time_options_order _ _ Hs H8) as [_ ->].
  destruct (time_options_order _ _ Hs H16) as [_ ->].
  reflexivity.
Qed.

(** X8: On the times the two selects can hold, the text comparisons of the
    hours rule are comparisons of times of day: the end must be later than
    the start, and the start not before 08:00 on a day [getDay] counts as
    weekend, not before 16:00 on any other day. *)
Theorem hours_rule_in_minutes (tz : Z) (fd : FormData) (d : JS.CivilDate) (prev : Warnings) :
  date fd = Some d ->
  In (startTime fd) TIME_OPTIONS -> In (endTime fd) TIME_OPTIONS ->
  let day := JS.getDay tz (JS.parseDateOnly d) in
  let start := minutesOf (startTime fd) in
  let end_ := minutesOf (endTime fd) in
  hours (hoursEffect tz fd prev) =
    if end_ <=? start then MSG_END_BEFORE_START
    else if (day =? 0) || (day =? 6) then
      (if start <? 8 * 60 then MSG_WEEKEND else ""%string)
    else
      (if start <? 16 * 60 then MSG_WEEKDAY else ""%string).
Proof.
  intros Hd Hs He. apply hoursEffect_in_minutes; assumption.
Qed.

Lemma hours_rule_in_minutes_witness :
  date tuesdayDraft = Some tuesday /\
  In (startTime tuesdayDraft) TIME_OPTIONS /\ In (endTime tuesdayDraft) TIME_OPTIONS /\
  hours (hoursEffect IST tuesdayDraft initialWarnings) = ""%string.
Proof.
  assert (Hs : In (startTime tuesdayDraft) TIME_OPTIONS) by (vm_compute; tauto).
  assert (He : In (endTime tuesdayDraft) TIME_OPTIONS) by (vm_compute; tauto).
  split; [reflexivity|]. split; [exact Hs|]. split; [exact He|].
  rewrite (hours_rule_in_minutes IST tuesdayDraft tuesday initialWarnings eq_refl Hs He).
  reflexivity.
Defined.

(** X9: What the hours rule lets through, in any time zone and on any day: the
    start is 08:00 or later, the booking lasts at least a quarter of an hour,
    and it ends by 23:45 at the latest, so a booking that runs until midnight
    cannot be entered, and 23:45 is never accepted as a start. *)
Theorem accepted_hours_bounds (tz : Z) (fd : FormData) (d : JS.CivilDate) (prev : Warnings) :
  date fd = Some d ->
  In (startTime fd) TIME_OPTIONS -> In (endTime fd) TIME_OPTIONS ->
  hours (hoursEffect tz fd prev) = ""%string ->
  8 * 60 <= minutesOf (startTime fd) /\
  minutesOf (startTime fd) + 15 <= minutesOf (endTime fd) <= 23 * 60 + 45 /\
  endTime fd <> "00:00"%string /\ startTime fd <> "23:45"%string.
Proof.
  intros Hd Hs He Hok.
  rewrite (hoursEffect_in_minutes tz fd d prev Hd Hs He) in Hok. cbv zeta in Hok.
  destruct (option_minutes _ Hs) as (Hsr & Hsm & _).
  destruct (option_minutes _ He) as (Her & Hem & _).
  destruct (minutesOf (endTime fd) <=? minutesOf (startTime fd)) eqn:E; [discriminate|].
  apply Z.leb_gt in E.
  assert (Hstart : 8 * 60 <= minutesOf (startTime fd)).
  { destruct ((_ =? 0) || (_ =? 6)).
    - destruct (_ <? 8 * 60) eqn:E8; [discriminate|]. apply Z.ltb_ge in E8. exact E8.
    - destruct (_ <? 16 * 60) eqn:E16; [discriminate|]. apply Z.ltb_ge in E16. lia. }
  assert (Hlen : minutesOf (startTime fd) + 15 <= minutesOf (endTime fd)).
  { apply Z.mod_divide in Hsm; [|lia]. apply Z.mod_divide in Hem; [|lia].
    destruct Hsm as [a Ha]. destruct Hem as [b Hb]. lia. }
  repeat split; try lia.
  - intros H0. rewrite H0 in E. simpl in E. lia.
  - intros H0. rewrite H0 in Hlen. simpl in Hlen. lia.
Qed.

Lemma accepted_hours_bounds_witness :
  date tuesdayDraft = Some tuesday /\
  hours (hoursEffect IST tuesdayDraft initialWarnings) = ""%string /\
  minutesOf (startTime tuesdayDraft) + 15 <= minutesOf (endTime tuesdayDraft) <= 23 * 60 + 45.
Proof.
  split; [reflexivity|]. split; [reflexivity|].
  destruct (accepted_hours_bounds IST tuesdayDraft tuesday initialWarnings eq_refl)
    as (_ & H & _); [vm_compute; tauto | vm_compute; tauto | reflexivity | exact H].
Defined.

(** ** The effects and the slots *)

(** X10: The four rules write disjoint slots: run on any drafts and in any
    order, two different effects give the same warnings, and running one
    effect a second time changes nothing. *)
Theorem effects_commute (tz : Z) (VENUES : list Venue) (today : Z)
        (venues : list ApiVenue) (fd1 fd2 fd3 : FormData) (r : ConflictResponse)
        (w : Warnings) :
  let T := timelineEffect today fd1 in
  let V := venueEffect VENUES venues fd3 in
  let H := hoursEffect tz fd2 in
  let C := onConflictResponse r in
  T (V w) = V (T w) /\ T (H w) = H (T w) /\ T (C w) = C (T w) /\
  V (H w) = H (V w) /\ V (C w) = C (V w) /\ H (C w) = C (H w) /\
  T (T w) = T w /\ V (V w) = V w /\ H (H w) = H w /\ C (C w) = C w.
Proof.
  intros T V H C. subst T V H C.
  rewrite !conflict_after_response.
  unfold timelineEffect, venueEffect, hoursEffect.
  destruct w as [tl cf vn vt hr].
  destruct (date fd1); destruct (date fd2); destruct (venueIds fd3);
    repeat match goal with
           | |- context [if ?b then _ else _] => destruct b
           end;
    repeat split.
Qed.

Lemma step_slotsWellFormed (tz : Z) (VENUES : list Venue) (s : State) (e : Event) :
  slotsWellFormed (warnings s) -> slotsWellFormed (warnings (step tz VENUES s e)).
Proof.
  intros (Ht & Hh & Hv). destruct e; simpl; try (split; [|split]; assumption).
  - unfold timelineEffect. destruct (date (formData s)); [|split; [|split]; assumption].
    split; [|split; assumption]. cbn [timeline set_timeline].
    repeat match goal with
           | |- context [if ?b then _ else _] => destruct b
           end; simpl; auto.
  - unfold venueEffect. split; [|split].
    + destruct (venueIds (formData s)); [|destruct (existsb _ _)]; exact Ht.
    + destruct (venueIds (formData s)); [|destruct (existsb _ _)]; exact Hh.
    + destruct (venueIds (formData s)); [|destruct (existsb _ _)]; simpl; auto.
  - unfold hoursEffect. split; [|split].
    + destruct (date (formData s)); [destruct (_ || _)|]; exact Ht.
    + destruct (date (formData s)); [destruct (_ || _)|]; cbn [hours set_hours]; simpl; auto.
      repeat match goal with
             | |- context [if ?b then _ else _] => destruct b
             end; simpl; auto.
    + destruct (date (formData s)); [destruct (_ || _)|]; exact Hv.
  - destruct (conflictEffect _ _); split; [|split| |split]; assumption.
  - destruct (nth_error _ _); [|split; [|split]; assumption].
    simpl. rewrite conflict_after_response. split; [|split]; assumption.
Qed.

(** X11: In every state the form can reach, the Timeline and Hours slots hold
    the empty text or one of their three messages, and the venue message and
    its tag go together: both empty, the Category B message tagged warning,
    or the Category A message tagged success.  The tag is never [info]. *)
Theorem slots_stay_well_formed (tz : Z) (VENUES : list Venue) (es : list Event) :
  let w := warnings (run tz VENUES initialState es) in
  slotsWellFormed w /\
  venueType w <> "info"%string /\
  (venue w <> ""%string -> venueType w <> "warning"%string -> venue w = MSG_CATEGORY_A).
Proof.
  intros w.
  assert (Hw : slotsWellFormed w).
  { subst w.
    apply (run_invariant tz VENUES (fun s => slotsWellFormed (warnings s))).
    - intros s e. apply step_slotsWellFormed.
    - repeat split; simpl; auto. }
  split; [exact Hw|].
  destruct Hw as (_ & _ & Hv).
  destruct Hv as [E|[E|[E|[]]]]; injection E as E1 E2; rewrite <- E1, <- E2;
    (split; [discriminate|]); intros H1 H2; congruence.
Qed.

(** ** Venue selection *)

Lemma filter_out_length (id : string) (l : list string) :
  NoDup l -> In id l ->
  S (length (filter (fun x => negb (String.eqb x id)) l)) = length l.
Proof.
  induction 1 as [|a l Hnotin Hnd IH]; intros Hin; [destruct Hin|].
  simpl. destruct (String.eqb_spec a id) as [->|Hne]; simpl.
  - f_equal. clear IH Hin. induction l as [|b l IHl]; [reflexivity|].
    simpl. destruct (String.eqb_spec b id) as [->|_].
    + exfalso. apply Hnotin. left. reflexivity.
    + simpl. f_equal. apply IHl.
      * intros H. apply Hnotin. right. exact H.
      * inversion Hnd. assumption.
  - f_equal. apply IH. destruct Hin as [->|Hin]; [contradiction | exact Hin].
Qed.

Lemma filter_out_absent (id : string) (l : list string) :
  ~ In id l -> filter (fun x => negb (String.eqb x id)) l = l.
Proof.
  intros Hout. induction l as [|a l IH]; [reflexivity|].
  simpl. destruct (String.eqb_spec a id) as [->|_].
  - exfalso. apply Hout. left. reflexivity.
  - simpl. f_equal. apply IH. intros H. apply Hout. right. exact H.
Qed.

(** X12: A toggle flips the membership of its venue and of no other: afterwards
    the selection holds the other venues it held before, and the toggled one
    exactly when it was absent.  On a duplicate-free selection the size moves
    by one. *)
Theorem toggle_flips_membership (venueId x : string) (fd : FormData) :
  (In x (venueIds (handleVenueToggle venueId fd)) <->
     (x <> venueId /\ In x (venueIds fd)) \/ (x = venueId /\ ~ In venueId (venueIds fd))) /\
  (NoDup (venueIds fd) ->
     length (venueIds (handleVenueToggle venueId fd)) =
       if existsb (String.eqb venueId) (venueIds fd)
       then Nat.pred (length (venueIds fd)) else S (length (venueIds fd))).
Proof.
  split.
  - destruct (in_dec string_dec venueId (venueIds fd)) as [Hin|Hout].
    + destruct (toggle_present venueId fd Hin) as [-> _].
      rewrite filter_In, negb_true_iff, String.eqb_neq. tauto.
    + rewrite (toggle_absent venueId fd Hout), in_app_iff. simpl.
      split.
      * intros [H|[<-|[]]]; [left | right; tauto].
        split; [|exact H]. intros ->. contradiction.
      * intros [[_ H]|[-> _]]; auto.
  - intros Hnd. destruct (existsb (String.eqb venueId) (venueIds fd)) eqn:E.
    + apply includes_In in E. destruct (toggle_present venueId fd E) as [-> _].
      rewrite <- (filter_out_length venueId (venueIds fd) Hnd E). reflexivity.
    + assert (Hout : ~ In venueId (venueIds fd)).
      { intros H. apply includes_In in H. congruence. }
      rewrite (toggle_absent venueId fd Hout), length_app. simpl. lia.
Qed.

(** X13: Toggling a venue twice gives back the same set of selected venues.  The
    draft itself is unchanged when the venue was not selected; when it was,
    it has moved to the end of the selection. *)
Theorem toggle_twice (venueId : string) (fd : FormData) :
  let twice := handleVenueToggle venueId (handleVenueToggle venueId fd) in
  (forall x, In x (venueIds twice) <-> In x (venueIds fd)) /\
  (~ In venueId (venueIds fd) -> twice = fd) /\
  (In venueId (venueIds fd) ->
     venueIds twice =
       (filter (fun x => negb (String.eqb x venueId)) (venueIds fd) ++ [venueId])%list).
Proof.
  intros twice.
  assert (Habsent : ~ In venueId (venueIds fd) -> twice = fd).
  { intros Hout. subst twice. unfold handleVenueToggle at 1.
    assert (Hin : In venueId (venueIds (handleVenueToggle venueId fd))).
    { rewrite (toggle_absent venueId fd Hout), in_app_iff. right. left. reflexivity. }
    apply includes_In in Hin. cbv zeta. rewrite Hin.
    rewrite (toggle_absent venueId fd Hout), filter_app. simpl.
    rewrite String.eqb_refl. simpl. rewrite app_nil_r.
    rewrite (filter_out_absent venueId _ Hout).
    destruct fd; reflexivity. }
  assert (Hpresent : In venueId (venueIds fd) ->
            venueIds twice =
              (filter (fun x => negb (String.eqb x venueId)) (venueIds fd) ++ [venueId])%list).
  { intros Hin. subst twice.
    destruct (toggle_present venueId fd Hin) as [Heq Hgone].
    rewrite (toggle_absent venueId _ Hgone), Heq. reflexivity. }
  split; [|split; assumption].
  intros x. destruct (in_dec string_dec venueId (venueIds fd)) as [Hin|Hout].
  - rewrite (Hpresent Hin), in_app_iff, filter_In, negb_true_iff, String.eqb_neq. simpl.
    split.
    + intros [[H _]|[<-|[]]]; assumption.
    + intros H. destruct (string_dec x venueId) as [->|Hne]; [right; left; reflexivity|].
      left. split; assumption.
  - rewrite (Habsent Hout). tauto.
Qed.

(** ** Venue categories *)

Lemma normalize_cases (c : string) :
  (c = ""%string /\ normalizeVenueCategory (Some c) = None) \/
  (c = "auto_approval"%string /\ normalizeVenueCategory (Some c) = Some "A"%string) \/
  (c = "needs_approval"%string /\ normalizeVenueCategory (Some c) = Some "B"%string) \/
  (c <> ""%string /\ c <> "auto_approval"%string /\ c <> "needs_approval"%string /\
   normalizeVenueCategory (Some c) = Some c).
Proof.
  unfold normalizeVenueCategory.
  destruct (JS.truthy c) eqn:Et; simpl.
  - apply truthy_true in Et.
    destruct (String.eqb_spec c "auto_approval") as [->|Ha]; [right; left; auto|].
    destruct (String.eqb_spec c "needs_approval") as [->|Hn]; [right; right; left; auto|].
    right; right; right. auto.
  - apply truthy_false in Et. left. auto.
Qed.

(** X14: Normalizing a category twice is normalizing it once, and a normalized
    category is never empty and never one of the two legacy spellings. *)
Theorem normalize_idempotent (category : option string) :
  normalizeVenueCategory (normalizeVenueCategory category) = normalizeVenueCategory category /\
  normalizeVenueCategory category <> Some ""%string /\
  normalizeVenueCategory category <> Some "auto_approval"%string /\
  normalizeVenueCategory category <> Some "needs_approval"%string.
Proof.
  destruct category as [c|]; [|repeat split; discriminate].
  destruct (normalize_cases c) as [[_ E]|[[_ E]|[[_ E]|(H0 & Ha & Hn & E)]]]; rewrite E.
  - repeat split; discriminate.
  - repeat split; discriminate.
  - repeat split; discriminate.
  - repeat split; congruence.
Qed.

Lemma getVenueCategory_fetched (VENUES : list Venue) (venues : list ApiVenue)
      (id : string) (v : ApiVenue) (c : string) :
  find (fun v => String.eqb (venue_id v) id) venues = Some v ->
  venue_category v = Some c -> c <> ""%string ->
  getVenueCategory VENUES venues id = normalizeVenueCategory (Some c) /\
  normalizeVenueCategory (Some c) <> None.
Proof.
  intros Hfind Hcat Hc. unfold getVenueCategory. rewrite Hfind, Hcat.
  assert (Hn : normalizeVenueCategory (Some c) <> None).
  { unfold normalizeVenueCategory. apply truthy_true in Hc. rewrite Hc. simpl.
    destruct (String.eqb _ _); [discriminate|].
    destruct (String.eqb _ _); discriminate. }
  split; [|exact Hn].
  destruct (normalizeVenueCategory (Some c)); [reflexivity | contradiction].
Qed.

(** X15: The static table is only a fallback: when the fetched list has an entry
    with a category for every selected venue, the venue message and tag are
    the same whatever the static table holds. *)
Theorem fetched_categories_shadow_static (V1 V2 : list Venue) (venues : list ApiVenue)
        (fd : FormData) (prev : Warnings) :
  (forall id, In id (venueIds fd) ->
     exists v c, find (fun v => String.eqb (venue_id v) id) venues = Some v /\
                 venue_category v = Some c /\ c <> ""%string) ->
  venueEffect V1 venues fd prev = venueEffect V2 venues fd prev.
Proof.
  intros Hall. unfold venueEffect.
  destruct (venueIds fd) as [|id ids] eqn:E; [reflexivity|].
  assert (Hmap : map (getVenueCategory V1 venues) (id :: ids)
                 = map (getVenueCategory V2 venues) (id :: ids)).
  { apply map_ext_in. intros a Ha.
    destruct (Hall a Ha) as (v & c & Hfind & Hcat & Hc).
    destruct (getVenueCategory_fetched V1 venues a v c Hfind Hcat Hc) as [-> _].
    destruct (getVenueCategory_fetched V2 venues a v c Hfind Hcat Hc) as [-> _].
    reflexivity. }
  rewrite Hmap. reflexivity.
Qed.

Lemma fetched_categories_shadow_static_witness :
  venueEffect sampleStatic sampleVenues mixedVenueDraft initialWarnings
    = venueEffect [] sampleVenues mixedVenueDraft initialWarnings /\
  venueEffect sampleStatic sampleVenues mixedVenueDraft initialWarnings
    = set_venue MSG_CATEGORY_B "warning" initialWarnings.
Proof.
  split; [|reflexivity].
  apply (fetched_categories_shadow_static sampleStatic [] sampleVenues mixedVenueDraft
           initialWarnings).
  intros id [<-|[<-|[]]].
  - exists (mkVenue "v1" (Some "A"%string)), "A"%string.
    split; [reflexivity|]. split; [reflexivity | discriminate].
  - exists (mkVenue "v2" (Some "needs_approval"%string)), "needs_approval"%string.
    split; [reflexivity|]. split; [reflexivity | discriminate].
Defined.

Lemma find_unique_id (venues : list ApiVenue) (v : ApiVenue) :
  NoDup (map venue_id venues) -> In v venues ->
  find (fun x => String.eqb (venue_id x) (venue_id v)) venues = Some v.
Proof.
  induction venues as [|a l IH]; intros Hnd Hin; [destruct Hin|].
  simpl in Hnd. inversion Hnd as [|? ? Hnotin Hnd']; subst.
  simpl. destruct Hin as [->|Hin].
  - rewrite String.eqb_refl. reflexivity.
  - destruct (String.eqb_spec (venue_id a) (venue_id v)) as [E|_].
    + exfalso. apply Hnotin. rewrite E. apply in_map, Hin.
    + apply IH; assumption.
Qed.

Lemma listed_category (VENUES : list Venue) (venues : list ApiVenue) (c : string)
      (v : ApiVenue) :
  NoDup (map venue_id venues) -> In v (filter (listedUnder c) venues) ->
  getVenueCategory VENUES venues (venue_id v) = Some c.
Proof.
  intros Hnd Hin. apply filter_In in Hin. destruct Hin as [Hin Hlisted].
  unfold getVenueCategory. rewrite (find_unique_id venues v Hnd Hin).
  unfold listedUnder in Hlisted.
  destruct (normalizeVenueCategory (venue_category v)) as [x|]; [|discriminate].
  apply String.eqb_eq in Hlisted. subst. reflexivity.
Qed.

(** X16: What the user picks is what the classifier sees: when the fetched
    venues have distinct identifiers, a selection that includes a venue
    listed under Category B gets the approval warning, a selection made only
    of venues listed under Category A gets the direct-booking message, and
    no venue is listed under both. *)
Theorem listed_venues_classified (VENUES : list Venue) (venues : list ApiVenue)
        (fd : FormData) (prev : Warnings) :
  NoDup (map venue_id venues) ->
  venueIds fd <> [] ->
  let w := venueEffect VENUES venues fd prev in
  ((exists v, In v (categoryBList venues) /\ In (venue_id v) (venueIds fd)) ->
     venue w = MSG_CATEGORY_B /\ venueType w = "warning"%string) /\
  ((forall id, In id (venueIds fd) ->
      exists v, In v (categoryAList venues) /\ venue_id v = id) ->
     venue w = MSG_CATEGORY_A /\ venueType w = "success"%string) /\
  (forall v, In v (categoryAList venues) -> ~ In v (categoryBList venues)).
Proof.
  intros Hnd Hne w. subst w. split; [|split].
  - intros (v & HvB & Hsel).
    rewrite venueEffect_nonempty by assumption.
    assert (Hex : existsb isCategoryB
                    (map (getVenueCategory VENUES venues) (venueIds fd)) = true).
    { apply hasCategoryB_exists. exists (venue_id v). split; [exact Hsel|].
      left. apply (listed_category VENUES venues "B" v Hnd HvB). }
    rewrite Hex. split; reflexivity.
  - intros Hall.
    rewrite venueEffect_no_restricted; [split; reflexivity | assumption |].
    intros id Hin. destruct (Hall id Hin) as (v & HvA & <-).
    rewrite (listed_category VENUES venues "A" v Hnd HvA).
    intros [R|R]; discriminate.
  - intros v HA HB.
    pose proof (listed_category VENUES venues "A" v Hnd HA) as EA.
    pose proof (listed_category VENUES venues "B" v Hnd HB) as EB.
    rewrite EA in EB. discriminate.
Qed.

Lemma listed_venues_classified_witness :
  NoDup (map venue_id sampleVenues) /\
  categoryBList sampleVenues = [mkVenue "v2" (Some "needs_approval"%string)] /\
  venue (venueEffect [] sampleVenues mixedVenueDraft initialWarnings) = MSG_CATEGORY_B /\
  venueType (venueEffect [] sampleVenues mixedVenueDraft initialWarnings) = "warning"%string.
Proof.
  assert (Hnd : NoDup (map venue_id sampleVenues)).
  { repeat constructor; simpl; intuition discriminate. }
  split; [exact Hnd|]. split; [reflexivity|].
  apply (listed_venues_classified [] sampleVenues mixedVenueDraft initialWarnings Hnd).
  - discriminate.
  - exists (mkVenue "v2" (Some "needs_approval"%string)). split.
    + left. reflexivity.
    + right. left. reflexivity.
Defined.

(** ** Submission *)

(** X17: The gate does not wait for the conflict check: on a complete draft with
    no warning on screen, once the conflict effect has sent its request and
    before any answer has come, [handleSubmit] sends the booking. *)
Theorem submit_does_not_wait_for_conflict_check (tz : Z) (VENUES : list Venue) (s : State)
        (d : JS.CivilDate) (c : ApiClub) (v : string) (vs : list string) :
  date (formData s) = Some d ->
  startTime (formData s) <> ""%string -> endTime (formData s) <> ""%string ->
  clubName (formData s) <> ""%string ->
  findClub (clubs s) (clubName (formData s)) = Some c ->
  venueIds (formData s) = v :: vs ->
  hasErrors (warnings s) = false ->
  let s1 := step tz VENUES s RunConflict in
  (exists q, pending s1 = (pending s ++ [q])%list /\ q_clubId q = club_id c) /\
  submittable (warnings s1) = true /\
  handleSubmit (clubs s1) false (formData s1) (warnings s1) = Posted (club_id c) (v :: vs).
Proof.
  intros Hd Hs He Hc Hclub Hids Hok s1.
  assert (Hq : conflictEffect (clubs s) (formData s) =
               IssueRequest (mkQuery d (startTime (formData s)) (endTime (formData s))
                                     (club_id c) (Some (JS.join "," (v :: vs))))).
  { unfold conflictEffect. rewrite Hd.
    apply truthy_true in Hs. apply truthy_true in He. apply truthy_true in Hc.
    rewrite Hs, He, Hc, Hclub, Hids. reflexivity. }
  assert (H1 : s1 = mkState (formData s) (warnings s) (clubs s) (venues s)
                            (pending s ++ [mkQuery d (startTime (formData s))
                                             (endTime (formData s)) (club_id c)
                                             (Some (JS.join "," (v :: vs)))])%list).
  { subst s1. simpl. rewrite Hq. reflexivity. }
  clearbody s1. subst s1. cbn [pending warnings clubs formData].
  split; [eexists; split; reflexivity|].
  split; [unfold submittable; rewrite Hok; reflexivity|].
  unfold handleSubmit, dateTimeValid. unfold hasErrors in Hok. rewrite Hok, Hclub, Hids, Hd.
  apply truthy_true in Hs. apply truthy_true in He. rewrite Hs, He. reflexivity.
Qed.

Lemma submit_does_not_wait_for_conflict_check_witness :
  let s := run IST sampleStatic initialState
               [MetaLoaded sampleClubs sampleVenues; Change (SetClubName "Coding Club");
                VenueToggle "v1"; Change (SetDate tuesday);
                Change (SetStartTime "17:00"); Change (SetEndTime "19:00")] in
  hasErrors (warnings s) = false /\
  pending (step IST sampleStatic s RunConflict) = [queryD2] /\
  handleSubmit (clubs s) false (formData s) (warnings (step IST sampleStatic s RunConflict))
    = Posted "c1" ["v1"%string].
Proof.
  split; [reflexivity|]. split; [reflexivity|].
  destruct (submit_does_not_wait_for_conflict_check IST sampleStatic
              (run IST sampleStatic initialState
                 [MetaLoaded sampleClubs sampleVenues; Change (SetClubName "Coding Club");
                  VenueToggle "v1"; Change (SetDate tuesday);
                  Change (SetStartTime "17:00"); Change (SetEndTime "19:00")])
              tuesday (mkClub "c1" "Coding Club") "v1"%string []
              eq_refl ltac:(discriminate) ltac:(discriminate) ltac:(discriminate)
              eq_refl eq_refl eq_refl)
    as (_ & _ & H).
  exact H.
Defined.

Lemma run_without_catalog (tz : Z) (VENUES : list Venue) (es : list Event) (s : State) :
  forallb (fun e => negb (isMetaLoaded e)) es = true ->
  clubs (run tz VENUES s es) = clubs s /\ venues (run tz VENUES s es) = venues s.
Proof.
  revert s. induction es as [|e es IH]; intros s Hall; [split; reflexivity|].
  simpl in Hall. apply andb_true_iff in Hall. destruct Hall as [He Hes].
  simpl. destruct (IH (step tz VENUES s e) Hes) as [-> ->].
  destruct e; simpl in He |- *; try discriminate; try (split; reflexivity).
  - destruct (conflictEffect _ _); split; reflexivity.
  - destruct (nth_error _ _); split; reflexivity.
Qed.

(** X18: Without the catalog nothing can be submitted: as long as [fetchMeta] has
    not delivered (it failed, or has not answered yet) the club and venue
    lists stay empty, both venue lists of the popover are empty, and whatever
    the user does, [handleSubmit] never sends a booking; with no warning on
    screen and no submission in flight it ends on the invalid-club error. *)
Theorem no_catalog_no_submission (tz : Z) (VENUES : list Venue) (es : list Event)
        (isSubmitting : bool) :
  forallb (fun e => negb (isMetaLoaded e)) es = true ->
  let s := run tz VENUES initialState es in
  clubs s = [] /\ categoryAList (venues s) = [] /\ categoryBList (venues s) = [] /\
  blocked (handleSubmit (clubs s) isSubmitting (formData s) (warnings s)) = true /\
  (hasErrors (warnings s) = false -> isSubmitting = false ->
   handleSubmit (clubs s) isSubmitting (formData s) (warnings s) = InvalidClub).
Proof.
  intros Hall s.
  destruct (run_without_catalog tz VENUES es initialState Hall) as [Hc Hv].
  fold s in Hc, Hv. simpl in Hc, Hv. rewrite Hc, Hv.
  split; [reflexivity|]. split; [reflexivity|]. split; [reflexivity|].
  unfold handleSubmit, hasErrors.
  destruct (JS.truthy (timeline (warnings s)) || JS.truthy (conflict (warnings s))
            || JS.truthy (hours (warnings s))); simpl.
  - split; [reflexivity | discriminate].
  - destruct isSubmitting; simpl; (split; [reflexivity|]).
    + intros _ H. discriminate H.
    + intros _ _. reflexivity.
Qed.

Lemma no_catalog_no_submission_witness :
  let s := run IST sampleStatic initialState
               [Change (SetClubName "Coding Club"); VenueToggle "v1";
                Change (SetDate tuesday); Change (SetStartTime "17:00");
                Change (SetEndTime "18:00"); RunTimeline newYearMorning; RunHours; RunConflict;
                ConflictSettled 0 answerD1] in
  hasErrors (warnings s) = false /\
  handleSubmit (clubs s) false (formData s) (warnings s) = InvalidClub.
Proof.
  split; [reflexivity|].
  destruct (no_catalog_no_submission IST sampleStatic
              [Change (SetClubName "Coding Club"); VenueToggle "v1";
               Change (SetDate tuesday); Change (SetStartTime "17:00");
               Change (SetEndTime "18:00"); RunTimeline newYearMorning; RunHours; RunConflict;
               ConflictSettled 0 answerD1] false eq_refl)
    as (_ & _ & _ & _ & H).
  apply H; reflexivity.
Defined.

Lemma findClub_found (clubs : list ApiClub) (name : string) (c : ApiClub) :
  findClub clubs name = Some c -> In c clubs /\ club_name c = name.
Proof.
  unfold findClub. intros H. apply find_some in H. destruct H as [Hin E].
  apply String.eqb_eq in E. auto.
Qed.

(** X19: What a booking that is sent carries, in every state the form can reach:
    the identifier of a fetched club whose name is the draft's club name, and
    the selected venues, at least one and none of them twice; and no warning
    is on screen. *)
Theorem posted_booking_well_formed (tz : Z) (VENUES : list Venue) (es : list Event)
        (isSubmitting : bool) (clubId : string) (ids : list string) :
  let s := run tz VENUES initialState es in
  handleSubmit (clubs s) isSubmitting (formData s) (warnings s) = Posted clubId ids ->
  ids = venueIds (formData s) /\ ids <> [] /\ NoDup ids /\
  (exists c, In c (clubs s) /\ club_name c = clubName (formData s) /\ club_id c = clubId) /\
  timeline (warnings s) = ""%string /\ hours (warnings s) = ""%string /\
  conflict (warnings s) = ""%string /\ isSubmitting = false.
Proof.
  intros s Hpost.
  assert (Hnd : NoDup (venueIds (formData s))).
  { subst s. apply (run_invariant tz VENUES (fun s => NoDup (venueIds (formData s)))).
    - intros s0 e. apply step_NoDup.
    - constructor. }
  unfold handleSubmit in Hpost.
  destruct (JS.truthy (timeline (warnings s))) eqn:Et; [discriminate|].
  destruct (JS.truthy (conflict (warnings s))) eqn:Ec; [discriminate|].
  destruct (JS.truthy (hours (warnings s))) eqn:Eh; [discriminate|].
  simpl in Hpost.
  destruct isSubmitting; [discriminate|].
  destruct (findClub (clubs s) (clubName (formData s))) as [c|] eqn:Eclub; [|discriminate].
  destruct (venueIds (formData s)) as [|v vs] eqn:Eids; [discriminate|].
  destruct (dateTimeValid (formData s) (startTime (formData s))
            && dateTimeValid (formData s) (endTime (formData s))); [|discriminate].
  injection Hpost as <- <-.
  destruct (findClub_found _ _ _ Eclub) as [Hin Hname].
  apply truthy_false in Et. apply truthy_false in Ec. apply truthy_false in Eh.
  repeat split; try assumption; try discriminate.
  exists c. auto.
Qed.

Lemma posted_booking_well_formed_witness :
  let s := run IST sampleStatic initialState
               [MetaLoaded sampleClubs sampleVenues; Change (SetClubName "Coding Club");
                Change (SetDate tuesday); Change (SetStartTime "17:00");
                Change (SetEndTime "18:00");
                VenueToggle "v1"; VenueToggle "v2"; VenueToggle "v1"] in
  handleSubmit (clubs s) false (formData s) (warnings s) = Posted "c1" ["v2"%string] /\
  NoDup ["v2"%string].
Proof.
  split; [reflexivity|].
  destruct (posted_booking_well_formed IST sampleStatic
              [MetaLoaded sampleClubs sampleVenues; Change (SetClubName "Coding Club");
               Change (SetDate tuesday); Change (SetStartTime "17:00");
               Change (SetEndTime "18:00");
               VenueToggle "v1"; VenueToggle "v2"; VenueToggle "v1"]
              false "c1"%string ["v2"%string] eq_refl) as (_ & _ & H & _).
  exact H.
Defined.

(** ** Answers that arrive in order *)

Lemma settle_oldest (tz : Z) (VENUES : list Venue) (s : State) (r : ConflictResponse)
      (q : ConflictQuery) (qs : list ConflictQuery) :
  pending s = q :: qs ->
  step tz VENUES s (ConflictSettled 0 r) =
    mkState (formData s) (onConflictResponse r (warnings s)) (clubs s) (venues s) qs.
Proof.
  intros Hp. simpl. rewrite Hp. reflexivity.
Qed.

(** X20: When the answers come back in the order the requests were sent, the
    form ends on the answer to the request sent last: once every request in
    flight has settled, oldest first, the Conflict slot holds the outcome of
    the last answer, nothing is in flight any more, and the draft and the
    other slots are as they were. *)
Theorem in_order_answers_end_on_latest (tz : Z) (VENUES : list Venue) (s : State)
        (rs : list ConflictResponse) (r : ConflictResponse) :
  length (pending s) = S (length rs) ->
  let final := run tz VENUES s (map (ConflictSettled 0) (rs ++ [r])) in
  warnings final = set_conflict (conflictOutcome r) (warnings s) /\
  pending final = [] /\
  formData final = formData s.
Proof.
  revert s. induction rs as [|r0 rs IH]; intros s Hlen final.
  - destruct (pending s) as [|q [|q' qs]] eqn:Hp; try discriminate.
    subst final. simpl map. unfold run. cbn [fold_left].
    rewrite (settle_oldest tz VENUES s r q [] Hp). cbn [warnings pending formData].
    rewrite conflict_after_response. repeat split.
  - destruct (pending s) as [|q qs] eqn:Hp; [discriminate|].
    simpl in Hlen. injection Hlen as Hlen.
    subst final. simpl map. unfold run. cbn [fold_left].
    rewrite (settle_oldest tz VENUES s r0 q qs Hp).
    set (s1 := mkState (formData s) (onConflictResponse r0 (warnings s))
                       (clubs s) (venues s) qs).
    destruct (IH s1 Hlen) as (Hw & Hpend & Hfd).
    unfold run in Hw, Hpend, Hfd. rewrite Hw, Hpend, Hfd.
    subst s1. cbn [warnings formData]. rewrite conflict_after_response.
    destruct (warnings s); repeat split.
Qed.

Lemma in_order_answers_end_on_latest_witness :
  let issued := run IST sampleStatic initialState fillDraft in
  pending issued = [queryD1; queryD2] /\
  conflict (warnings (run IST sampleStatic issued
                        [ConflictSettled 0 answerD1; ConflictSettled 0 answerD2]))
    = conflictOutcome answerD2.
Proof.
  split; [reflexivity|].
  destruct (in_order_answers_end_on_latest IST sampleStatic
              (run IST sampleStatic initialState fillDraft) [answerD1] answerD2 eq_refl)
    as (Hw & _).
  simpl map in Hw. rewrite Hw. reflexivity.
Defined.
